(** * Job lifecycle of the Hunyuan3D direct API server

    A shallow embedding of [generation_testing/direct_api_server.py]:
    the in-memory job table [jobs], the generator client
    [Hunyuan3DClient.generate_3d_model], the three request handlers
    ([generate_model], [send_job], [get_job_status]) and the background
    executor [process_job], followed by the properties of the job
    lifecycle that the design document states about them. *)

From Stdlib Require Import ZArith NArith String Ascii List Floats Uint63.
From Stdlib.Strings Require Import Byte.
From stdpp Require Import base option list strings pretty gmap.

Local Open Scope string_scope.
Local Open Scope Z_scope.

#[local] Set Warnings "-register-all".

(** ** Python values *)

Abbreviation bytes := (list byte).
Abbreviation float := PrimFloat.float.

(** The values that are stored in a job record or sent to the backend.
    A nested dictionary ([request.dict()]) keeps its fields in declaration
    order. *)
Inductive pyval :=
| VNone
| VBool (b : bool)
| VInt (z : Z)
| VFloat (f : float)
| VStr (s : string)
| VDict (d : list (string * pyval)).

(** An [Optional[T]] field holds [None] or a value. *)
Definition opt {A} (inj : A → pyval) (o : option A) : pyval :=
  match o with
  | Some a => inj a
  | None => VNone
  end.

(** A Python dict with string keys, such as a job record; and the job
    table [jobs], which maps a job identifier to its record. *)
Abbreviation dict := (gmap string pyval).
Abbreviation table := (gmap string (gmap string pyval)).

(** ** Exceptions *)

(** Every exception below derives from [Exception], so an
    [except Exception] clause catches each of them. *)
Inductive exn :=
| ValueError (msg : string)
| BinasciiError (msg : string)
| KeyError (key : string)
| Exception (msg : string)
| ClientError (msg : string).

(** [str(e)]. A [KeyError] prints the [repr] of its key; the quoting below
    is exact for keys without quotes, backslashes or control characters
    (job identifiers and field names). *)
Definition str (e : exn) : string :=
  match e with
  | ValueError msg | BinasciiError msg | Exception msg | ClientError msg => msg
  | KeyError key => "'" +:+ key +:+ "'"
  end.

Inductive res (A : Type) :=
| Ok (a : A)
| Raise (e : exn).
Arguments Ok {A} a.
Arguments Raise {A} e.

(** ** base64 *)

Definition b64_alphabet : string :=
  "ABCDEFGHIJKLMNOPQRSTUVWXYZabcdefghijklmnopqrstuvwxyz0123456789+/".

Definition b64_char (n : N) : ascii :=
  default "="%char (String.get (N.to_nat n) b64_alphabet).

(** [base64.b64encode(s).decode('utf-8')]: three bytes give four
    characters, a last group of one or two bytes is padded with [=]. *)
Fixpoint b64encode (s : bytes) : string :=
  match s with
  | [] => ""
  | [a] =>
      let a := Byte.to_N a in
      String (b64_char (a / 4))
        (String (b64_char (a mod 4 * 16)) "==")
  | [a; b] =>
      let a := Byte.to_N a in
      let b := Byte.to_N b in
      String (b64_char (a / 4))
        (String (b64_char (a mod 4 * 16 + b / 16))
           (String (b64_char (b mod 16 * 4)) "="))
  | a :: b :: c :: rest =>
      let a := Byte.to_N a in
      let b := Byte.to_N b in
      let c := Byte.to_N c in
      String (b64_char (a / 4))
        (String (b64_char (a mod 4 * 16 + b / 16))
           (String (b64_char (b mod 16 * 4 + c / 64))
              (String (b64_char (c mod 64)) (b64encode rest))))
  end%N.

Definition b64_value (c : ascii) : option N :=
  (let n := N_of_ascii c in
   if (65 <=? n) && (n <=? 90) then Some (n - 65)
   else if (97 <=? n) && (n <=? 122) then Some (n - 71)
   else if (48 <=? n) && (n <=? 57) then Some (n + 4)
   else if n =? 43 then Some 62
   else if n =? 47 then Some 63
   else None)%N.

Definition byte_of (n : N) : byte := default x00 (Byte.of_N (n mod 256)%N).

(** The decoding loop of [binascii.a2b_base64] in its default, lenient
    mode: characters outside the alphabet are skipped, a complete pad
    sequence ends the input, and a dangling group is an error.  [out]
    holds the decoded bytes, last first. *)
Fixpoint a2b_base64 (s : string) (quad_pos : nat) (leftchar : N)
    (pads : nat) (out : bytes) : res bytes :=
  match s with
  | EmptyString =>
      match quad_pos with
      | O => Ok (rev out)
      | 1%nat =>
          Raise (BinasciiError
            ("Invalid base64-encoded string: number of data characters ("
             +:+ pretty (length out / 3 * 4 + 1)%nat
             +:+ ") cannot be 1 more than a multiple of 4"))
      | _ => Raise (BinasciiError "Incorrect padding")
      end
  | String ch s' =>
      if Ascii.eqb ch "="
      then
        if (2 <=? quad_pos)%nat
        then
          if (4 <=? quad_pos + S pads)%nat
          then Ok (rev out)
          else a2b_base64 s' quad_pos leftchar (S pads) out
        else a2b_base64 s' quad_pos leftchar pads out
      else
        match b64_value ch with
        | None => a2b_base64 s' quad_pos leftchar pads out
        | Some v =>
            match quad_pos with
            | 0%nat => a2b_base64 s' 1 v 0 out
            | 1%nat =>
                a2b_base64 s' 2 (v mod 16)%N 0
                  (byte_of (leftchar * 4 + v / 16) :: out)
            | 2%nat =>
                a2b_base64 s' 3 (v mod 4)%N 0
                  (byte_of (leftchar * 16 + v / 4) :: out)
            | _ =>
                a2b_base64 s' 0 0%N 0
                  (byte_of (leftchar * 64 + v) :: out)
            end
        end
  end.

Fixpoint is_ascii_string (s : string) : bool :=
  match s with
  | EmptyString => true
  | String ch s' => (N_of_ascii ch <? 128)%N && is_ascii_string s'
  end.

(** [base64.b64decode(s)] on a [str] argument, as CPython implements it:
    the reference behaviour of the decoder the handlers call. *)
Definition py_b64decode (s : string) : res bytes :=
  if is_ascii_string s
  then a2b_base64 s 0 0%N 0 []
  else Raise (ValueError "string argument should contain only ASCII characters").

(** ** Requests, backend calls and the environment *)

(** [GenerateRequest]: every field but [image] is [Optional]. *)
Record GenerateRequest := {
  image : string;
  caption : option string;
  seed : option Z;
  octree_resolution : option Z;
  num_inference_steps : option Z;
  guidance_scale : option float;
  mc_algo : option string;
  texture : option bool;
  type : option string;
}.

(** [request.dict()] *)
Definition request_dict (request : GenerateRequest) : pyval :=
  VDict [("image", VStr (image request));
         ("caption", opt VStr (caption request));
         ("seed", opt VInt (seed request));
         ("octree_resolution", opt VInt (octree_resolution request));
         ("num_inference_steps", opt VInt (num_inference_steps request));
         ("guidance_scale", opt VFloat (guidance_scale request));
         ("mc_algo", opt VStr (mc_algo request));
         ("texture", opt VBool (texture request));
         ("type", opt VStr (type request))].

(** One call [self.client.post(data={"data": [image_data, parameters,
    output_type]}, model_kwargs={"wait_for_model": True})]. *)
Record post_call := PostCall {
  data_image : bytes;
  data_parameters : dict;
  data_output_type : pyval;
  wait_for_model : bool;
}.

(** The arguments of one call of [Hunyuan3DClient.generate_3d_model]. *)
Record client_args := ClientArgs {
  arg_image_data : bytes;
  arg_caption : option string;
  arg_seed : option Z;
  arg_octree_resolution : option Z;
  arg_num_inference_steps : option Z;
  arg_guidance_scale : option float;
  arg_mc_algo : option string;
  arg_texture : option bool;
  arg_output_type : option string;
}.

(** What the server does not decide itself: its configuration, the
    library decoder, the answers of the remote backend (the [n]-th call
    may answer or raise), the clock and the identifier generator. *)
Record Env := {
  HUGGINGFACE_API_KEY : option string;
  b64decode : string → res bytes;
  client_post : nat → post_call → res bytes;
  time_time : nat → float;
  uuid4 : nat → string;
}.

(** The state of the process: the job table; the record written by each
    assignment into it (oldest first); the calls of the generator client
    and the backend calls issued so far; the job table as it stood each
    time a coroutine was suspended, which is when the event loop lets other
    requests and tasks read it; the numbers of clock reads and of
    identifiers drawn; and the background tasks handed to the framework.
    Only [jobs] is data of the program; the logs record what it did. *)
Record world := World {
  jobs : table;
  history : list (string * dict);
  invocations : list client_args;
  calls : list post_call;
  seen : list (table);
  clock : nat;
  issued : nat;
  background_tasks : list (string * GenerateRequest);
}.

(** ** A state and exception monad *)

Definition M (A : Type) : Type := world → res A * world.

Definition ret {A} (a : A) : M A := fun w => (Ok a, w).

Definition raise {A} (e : exn) : M A := fun w => (Raise e, w).

Definition bind {A B} (m : M A) (k : A → M B) : M B :=
  fun w =>
    match m w with
    | (Ok a, w') => k a w'
    | (Raise e, w') => (Raise e, w')
    end.

Notation "x <- m ;; k" := (bind m (fun x => k))
  (at level 100, m at next level, right associativity).
Notation "m ;; k" := (bind m (fun _ => k))
  (at level 100, right associativity).

(** [try: body except Exception as e: handler] *)
Definition try_except {A} (body : M A) (handler : exn → M A) : M A :=
  fun w =>
    match body w with
    | (Ok a, w') => (Ok a, w')
    | (Raise e, w') => handler e w'
    end.

Definition lift {A} (r : res A) : M A := fun w => (r, w).

(** [jobs[job_id] = rec] *)
Definition set_job (job_id : string) (rec : dict) : M unit :=
  fun w =>
    (Ok (),
     World (<[job_id := rec]> (jobs w)) (history w ++ [(job_id, rec)])
       (invocations w) (calls w) (seen w) (clock w) (issued w)
       (background_tasks w)).

(** [jobs[job_id][key] = v]: the lookup of [job_id] raises [KeyError] when
    the job is unknown. *)
Definition setitem (job_id key : string) (v : pyval) : M unit :=
  fun w =>
    match jobs w !! job_id with
    | None => (Raise (KeyError job_id), w)
    | Some rec => set_job job_id (<[key := v]> rec) w
    end.

(** [dict.get(key)] *)
Definition dict_get (d : dict) (key : string) : pyval :=
  default VNone (d !! key).

(** [v == s] for a string literal [s] *)
Definition eq_str (v : pyval) (s : string) : bool :=
  match v with
  | VStr s' => String.eqb s' s
  | _ => false
  end.

(** Truth value of an optional string ([None] and [""] are false). *)
Definition truthy (o : option string) : bool :=
  match o with
  | Some s => negb (String.eqb s "")
  | None => false
  end.

(** What a request handler gives back to the framework: a value to
    serialise, an [HTTPException], or an exception that no handler
    caught. *)
Inductive http_result (A : Type) :=
| Returned (a : A)
| HTTPException (status_code : Z) (detail : string)
| Unhandled (e : exn).
Arguments Returned {A} a.
Arguments HTTPException {A} status_code detail.
Arguments Unhandled {A} e.

Record Response := { content : bytes; media_type : string }.

(** The response model of a status query. *)
Record JobStatus := {
  status : pyval;
  progress : pyval;
  message : pyval;
  model_base64 : pyval;
  error : pyval;
}.

Section Server.

Variable E : Env.

(** [time.time()] *)
Definition time : M float :=
  fun w =>
    (Ok (time_time E (clock w)),
     World (jobs w) (history w) (invocations w) (calls w) (seen w)
       (S (clock w)) (issued w) (background_tasks w)).

(** [str(uuid.uuid4())] *)
Definition new_uuid : M string :=
  fun w =>
    (Ok (uuid4 E (issued w)),
     World (jobs w) (history w) (invocations w) (calls w) (seen w)
       (clock w) (S (issued w)) (background_tasks w)).

(** [await run_in_threadpool(lambda: self.client.post(...))]: the
    coroutine is suspended while a worker thread makes the call, so the job
    table as it stands is what other tasks see meanwhile. *)
Definition post (c : post_call) : M bytes :=
  fun w =>
    (client_post E (length (calls w)) c,
     World (jobs w) (history w) (invocations w) (calls w ++ [c])
       (seen w ++ [jobs w]) (clock w) (issued w) (background_tasks w)).

(** [background_tasks.add_task(process_job, job_id, request)] *)
Definition add_task (job_id : string) (request : GenerateRequest) : M unit :=
  fun w =>
    (Ok (),
     World (jobs w) (history w) (invocations w) (calls w) (seen w)
       (clock w) (issued w) (background_tasks w ++ [(job_id, request)])).

(** Entering [generate_3d_model] with the arguments [a]. *)
Definition enter (a : client_args) : M unit :=
  fun w =>
    (Ok (),
     World (jobs w) (history w) (invocations w ++ [a]) (calls w) (seen w)
       (clock w) (issued w) (background_tasks w)).

(** ** The generator client *)

(** The [parameters] dictionary of [generate_3d_model]. *)
Definition parameters (caption : option string) (seed : option Z)
    (octree_resolution num_inference_steps : option Z)
    (guidance_scale : option float) : dict :=
  let parameters : dict :=
    <["randomize_seed" :=
        VBool (match seed with None => true | Some _ => false end)]>
      (<["num_chunks" := VInt 4000]>
         (<["check_box_rembg" := VBool true]>
            (<["octree_resolution" := opt VInt octree_resolution]>
               (<["guidance_scale" := opt VFloat guidance_scale]>
                  (<["steps" := opt VInt num_inference_steps]>
                     (<["caption" := opt VStr caption]> ∅)))))) in
  match seed with
  | Some s => <["seed" := VInt s]> parameters
  | None => parameters
  end.

(** [Hunyuan3DClient.generate_3d_model] of the module-level client, whose
    [api_key] is [HUGGINGFACE_API_KEY]. *)
Definition generate_3d_model (image_data : bytes) (caption : option string)
    (seed octree_resolution num_inference_steps : option Z)
    (guidance_scale : option float) (mc_algo : option string)
    (texture : option bool) (output_type : option string) : M bytes :=
  enter (ClientArgs image_data caption seed octree_resolution
           num_inference_steps guidance_scale mc_algo texture output_type) ;;
  if negb (truthy (HUGGINGFACE_API_KEY E))
  then raise (ValueError "HUGGINGFACE_API_KEY is not set")
  else
    try_except
      (post (PostCall image_data
               (parameters caption seed octree_resolution
                  num_inference_steps guidance_scale)
               (opt VStr output_type) true))
      (fun e => raise (Exception ("Error generating 3D model: " +:+ str e))).

(** ** Request handlers *)

(** The [try] block of [generate_model]. *)
Definition generate_model_body (request : GenerateRequest) : M bytes :=
  image_data <- lift (b64decode E (image request)) ;;
  generate_3d_model image_data (caption request) (seed request)
    (octree_resolution request) (num_inference_steps request)
    (guidance_scale request) (mc_algo request) (texture request)
    (type request).

(** [POST /generate] *)
Definition generate_model (request : GenerateRequest)
    (w : world) : http_result Response * world :=
  match generate_model_body request w with
  | (Ok model_data, w') =>
      (Returned {| content := model_data;
                   media_type := "application/octet-stream" |}, w')
  | (Raise e, w') => (HTTPException 500 (str e), w')
  end.

(** The record stored by [send_job]. *)
Definition queued_record (created_at : float) (request : GenerateRequest)
    : dict :=
  <["request" := request_dict request]>
    (<["created_at" := VFloat created_at]>
       (<["message" := VStr "Job queued for processing"]>
          (<["progress" := VInt 0]>
             (<["status" := VStr "queued"]> ∅)))).

(** The [try] block of [send_job]. *)
Definition send_job_body (request : GenerateRequest)
    : M (list (string * pyval)) :=
  job_id <- new_uuid ;;
  created_at <- time ;;
  set_job job_id (queued_record created_at request) ;;
  add_task job_id request ;;
  ret [("uid", VStr job_id); ("status", VStr "queued")].

(** [POST /send] *)
Definition send_job (request : GenerateRequest)
    (w : world) : http_result (list (string * pyval)) * world :=
  match send_job_body request w with
  | (Ok r, w') => (Returned r, w')
  | (Raise e, w') => (HTTPException 500 (str e), w')
  end.

(** The [try] block of [process_job]. *)
Definition process_job_body (job_id : string) (request : GenerateRequest)
    : M unit :=
  setitem job_id "status" (VStr "processing") ;;
  setitem job_id "progress" (VInt 10) ;;
  setitem job_id "message" (VStr "Starting model generation") ;;
  image_data <- lift (b64decode E (image request)) ;;
  setitem job_id "progress" (VInt 30) ;;
  setitem job_id "message" (VStr "Calling Hunyuan3D API") ;;
  model_data <-
    generate_3d_model image_data (caption request) (seed request)
      (octree_resolution request) (num_inference_steps request)
      (guidance_scale request) (mc_algo request) (texture request)
      (type request) ;;
  setitem job_id "progress" (VInt 80) ;;
  setitem job_id "message" (VStr "Processing model data") ;;
  let model_base64 := b64encode model_data in
  setitem job_id "status" (VStr "completed") ;;
  setitem job_id "progress" (VInt 100) ;;
  setitem job_id "message" (VStr "Model generation completed") ;;
  setitem job_id "model_base64" (VStr model_base64) ;;
  completed_at <- time ;;
  setitem job_id "completed_at" (VFloat completed_at).

(** The [except Exception as e] block of [process_job]. *)
Definition process_job_except (job_id : string) (e : exn) : M unit :=
  let error_msg := "Error processing job " +:+ job_id +:+ ": " +:+ str e in
  setitem job_id "status" (VStr "failed") ;;
  setitem job_id "progress" (VInt 0) ;;
  setitem job_id "message" (VStr "Model generation failed") ;;
  setitem job_id "error" (VStr error_msg).

(** The background task of a submitted job. *)
Definition process_job (job_id : string) (request : GenerateRequest)
    : M unit :=
  try_except (process_job_body job_id request) (process_job_except job_id).

(** [GET /status/{job_id}]: [job["status"]] raises [KeyError] on a record
    without that key, which no handler catches.  The fields of the answer
    hold the values the handler passes to [JobStatus]; the conversions of
    the response model (an integer [progress] is rendered as a float) are
    left out. *)
Definition get_job_status (job_id : string)
    (w : world) : http_result JobStatus :=
  match jobs w !! job_id with
  | None => HTTPException 404 ("Job with ID " +:+ job_id +:+ " not found")
  | Some job =>
      match job !! "status" with
      | None => Unhandled (KeyError "status")
      | Some st =>
          Returned
            {| status := st;
               progress := dict_get job "progress";
               message := dict_get job "message";
               model_base64 :=
                 if eq_str st "completed"
                 then dict_get job "model_base64"
                 else VNone;
               error := dict_get job "error" |}
      end
  end.

End Server.

(** ** Observations on records and runs *)

Definition as_str (v : pyval) : option string :=
  match v with
  | VStr s => Some s
  | _ => None
  end.

Definition as_int (v : pyval) : option Z :=
  match v with
  | VInt z => Some z
  | _ => None
  end.

Definition status_of (rec : dict) : option string :=
  rec !! "status" ≫= as_str.

Definition progress_of (rec : dict) : option Z :=
  rec !! "progress" ≫= as_int.

(** The records that the assignments made between [w] and [w'] left in
    the entry of [job_id], oldest first. *)
Definition updates (job_id : string) (w w' : world)
    : list (dict) :=
  snd <$> filter (λ p, p.1 = job_id) (drop (length (history w)) (history w')).

(** The entries of [job_id] in the tables that other tasks could see at
    the suspensions between [w] and [w'], oldest first. *)
Definition observed (job_id : string) (w w' : world)
    : list (option (dict)) :=
  (.!! job_id) <$> drop (length (seen w)) (seen w').

Definition same_status (x y : option string) : bool :=
  match x, y with
  | Some a, Some b => String.eqb a b
  | None, None => true
  | _, _ => false
  end.

(** The states a record goes through: runs of equal states count once. *)
Fixpoint compress (l : list (option string)) : list (option string) :=
  match l with
  | [] => []
  | x :: t =>
      match t with
      | [] => [x]
      | y :: _ => if same_status x y then compress t else x :: compress t
      end
  end.

Fixpoint nondecreasing (l : list Z) : bool :=
  match l with
  | [] => true
  | x :: t =>
      match t with
      | [] => true
      | y :: _ => (x <=? y) && nondecreasing t
      end
  end.

(** The states of one job's entry, as the table shows them: the record
    [send_job] stores, then the record each assignment of [process_job]
    leaves when it runs on that entry. *)
Inductive lifecycle (E : Env) : dict → Prop :=
| lifecycle_queued created_at request :
    lifecycle E (queued_record created_at request)
| lifecycle_update created_at request job_id w rec :
    jobs w !! job_id = Some (queued_record created_at request) →
    rec ∈ updates job_id w (process_job E job_id request w).2 →
    lifecycle E rec.

(** *** Runs as lists of field assignments *)

(** The records that a list of assignments [rec[key] = v] leaves. *)
Fixpoint scan (rec : dict) (ws : list (string * pyval))
    : list (dict) :=
  match ws with
  | [] => []
  | (key, v) :: ws' => <[key := v]> rec :: scan (<[key := v]> rec) ws'
  end.

(** The values one key takes along [scan]. *)
Fixpoint lookup_scan (key : string) (cur : option pyval)
    (ws : list (string * pyval)) : list (option pyval) :=
  match ws with
  | [] => []
  | (k, v) :: ws' =>
      let cur' := if String.eqb k key then Some v else cur in
      cur' :: lookup_scan key cur' ws'
  end.

(** [w] after the entry of [job_id] took the values [recs], with client
    calls [inv], backend calls [cs], tables [sn] seen at suspensions and
    [ticks] clock reads. *)
Definition logged (w : world) (job_id : string)
    (recs : list (dict)) (inv : list client_args)
    (cs : list post_call) (sn : list (table))
    (ticks : nat) : world :=
  World
    (match last recs with
     | Some rec => <[job_id := rec]> (jobs w)
     | None => jobs w
     end)
    (history w ++ (pair job_id <$> recs)) inv cs sn ticks (issued w)
    (background_tasks w).

(** The record after a list of assignments. *)
Definition after (rec : dict) (ws : list (string * pyval))
    : dict :=
  foldl (λ r kv, <[kv.1 := kv.2]> r) rec ws.

(** The arguments with which the two handlers call [generate_3d_model]. *)
Definition args_for (image_data : bytes) (request : GenerateRequest)
    : client_args :=
  ClientArgs image_data (caption request) (seed request)
    (octree_resolution request) (num_inference_steps request)
    (guidance_scale request) (mc_algo request) (texture request)
    (type request).

(** The backend call that [generate_3d_model] builds from the arguments
    the two handlers pass it. *)
Definition call_for (image_data : bytes) (request : GenerateRequest)
    : post_call :=
  PostCall image_data
    (parameters (caption request) (seed request) (octree_resolution request)
       (num_inference_steps request) (guidance_scale request))
    (opt VStr (type request)) true.

Definition starting : list (string * pyval) :=
  [("status", VStr "processing");
   ("progress", VInt 10);
   ("message", VStr "Starting model generation")].

Definition calling : list (string * pyval) :=
  [("progress", VInt 30);
   ("message", VStr "Calling Hunyuan3D API")].

Definition finishing (model_data : bytes) (completed_at : float)
    : list (string * pyval) :=
  [("progress", VInt 80);
   ("message", VStr "Processing model data");
   ("status", VStr "completed");
   ("progress", VInt 100);
   ("message", VStr "Model generation completed");
   ("model_base64", VStr (b64encode model_data));
   ("completed_at", VFloat completed_at)].

Definition failing (job_id : string) (e : exn) : list (string * pyval) :=
  [("status", VStr "failed");
   ("progress", VInt 0);
   ("message", VStr "Model generation failed");
   ("error", VStr ("Error processing job " +:+ job_id +:+ ": " +:+ str e))].

(** ** Sample environments and requests *)

Definition sample_clock (n : nat) : float :=
  PrimFloat.of_uint63 (Uint63.of_Z (Z.of_nat n)).

(** A server whose backend gives every call the same answer. *)
Definition sample_env (key : option string) (answer : res bytes) : Env :=
  {| HUGGINGFACE_API_KEY := key;
     b64decode := py_b64decode;
     client_post := fun _ _ => answer;
     time_time := sample_clock;
     uuid4 := fun n => "job-" +:+ pretty n |}.

Definition env_ok : Env := sample_env (Some "hf_token") (Ok [x01; x02]).

Definition env_backend_down : Env :=
  sample_env (Some "hf_token") (Raise (ClientError "503 Service Unavailable")).

Definition env_empty_artifact : Env := sample_env (Some "hf_token") (Ok []).

Definition env_no_key : Env := sample_env None (Ok [x01; x02]).

(** An identifier generator that draws the same identifier every time. *)
Definition env_colliding : Env :=
  {| HUGGINGFACE_API_KEY := Some "hf_token";
     b64decode := py_b64decode;
     client_post := fun _ _ => Ok [x01; x02];
     time_time := sample_clock;
     uuid4 := fun _ => "job-0" |}.

Definition sample_request (img algo : string) (tex : bool)
    : GenerateRequest :=
  {| image := img;
     caption := Some "";
     seed := None;
     octree_resolution := Some 128;
     num_inference_steps := Some 20;
     guidance_scale := Some 5%float;
     mc_algo := Some algo;
     texture := Some tex;
     type := Some "glb" |}.

(** A request with a decodable image, and one whose image is a single
    base64 character. *)
Definition req_ok : GenerateRequest := sample_request "TWFu" "mc" false.
Definition req_bad_image : GenerateRequest := sample_request "T" "mc" false.
Definition req_dmc : GenerateRequest := sample_request "TWFu" "dmc" true.

Definition empty_world : world := World ∅ [] [] [] [] 0 0 [].

(** The process after one submission to a fresh server. *)
Definition submitted (E : Env) (request : GenerateRequest) : world :=
  (send_job E request empty_world).2.

(** ** Health probe and client construction *)

Definition HUNYUAN3D_MODEL_ENDPOINT : string :=
  "https://api-inference.huggingface.co/models/Tencent/Hunyuan3D-2".

(** [a or b] on optional strings. *)
Definition py_or (a b : option string) : option string :=
  if truthy a then a else b.

Record Hunyuan3DClient := {
  api_key : option string;
  model_endpoint : option string;
}.

(** [Hunyuan3DClient.__init__] *)
Definition Hunyuan3DClient_init (E : Env)
    (api_key model_endpoint : option string) : Hunyuan3DClient :=
  {| api_key := py_or api_key (HUGGINGFACE_API_KEY E);
     model_endpoint := py_or model_endpoint (Some HUNYUAN3D_MODEL_ENDPOINT) |}.

(** [hunyuan3d_client = Hunyuan3DClient()] *)
Definition hunyuan3d_client (E : Env) : Hunyuan3DClient :=
  Hunyuan3DClient_init E None None.

(** [GET /health] *)
Definition health_check (E : Env) : list (string * pyval) :=
  [("status", VStr "ok");
   ("api_key_configured", VBool (truthy (HUGGINGFACE_API_KEY E)))].

(** ** Answers on the wire *)

(** What the test client reads of an answer to a JSON endpoint: the status
    code and the result of [response.json()], [None] when that raises. *)
Record json_reply := JsonReply {
  reply_code : Z;
  reply_json : option dict;
}.

(** What it reads of the answer to [/generate]: the status code and the
    chunks that [response.iter_content] yields. *)
Record stream_reply := StreamReply {
  stream_code : Z;
  stream_chunks : list bytes;
}.

(** [response.ok]: false exactly when [raise_for_status] raises, which it
    does for the codes 400 to 599. *)
Definition reply_ok (code : Z) : bool :=
  negb ((400 <=? code) && (code <? 600)).

(** The JSON object of a [JobStatus]: every field, [None] as [null]. *)
Definition JobStatus_json (js : JobStatus) : dict :=
  <["error" := error js]>
    (<["model_base64" := model_base64 js]>
       (<["message" := message js]>
          (<["progress" := progress js]>
             (<["status" := status js]> ∅)))).

(** How the framework answers for a handler: a returned value goes out as
    JSON with status 200, an [HTTPException] with its status code and a
    [detail] object, an uncaught exception as a plain-text 500. *)
Definition respond_status (r : http_result JobStatus) : json_reply :=
  match r with
  | Returned js => JsonReply 200 (Some (JobStatus_json js))
  | HTTPException code detail =>
      JsonReply code (Some (<["detail" := VStr detail]> ∅))
  | Unhandled _ => JsonReply 500 None
  end.

Definition respond_json (r : http_result (list (string * pyval)))
    : json_reply :=
  match r with
  | Returned fields => JsonReply 200 (Some (list_to_map fields))
  | HTTPException code detail =>
      JsonReply code (Some (<["detail" := VStr detail]> ∅))
  | Unhandled _ => JsonReply 500 None
  end.

(** The answers to [/generate] that carry a handler's result: the artifact
    in chunks with status 200, or the error's status code. *)
Definition answers_generate (r : http_result Response) (a : stream_reply)
    : Prop :=
  match r with
  | Returned response =>
      stream_code a = 200 ∧ mjoin (stream_chunks a) = content response
  | HTTPException code _ => stream_code a = code
  | Unhandled _ => stream_code a = 500
  end.

(** A world that holds the table [t] and nothing else. *)
Definition with_jobs (t : table) : world := World t [] [] [] [] 0 0 [].

(** ** The test client *)

(** Truth value of a JSON value. *)
Definition py_truthy (v : pyval) : bool :=
  match v with
  | VNone => false
  | VBool b => b
  | VInt z => negb (z =? 0)
  | VFloat f => negb (PrimFloat.eqb f 0)
  | VStr s => negb (String.eqb s "")
  | VDict d => match d with [] => false | _ => true end
  end.

(** [request_data] of [test_sync_api] and [test_async_api]. *)
Definition request_data (base64_image caption : string) : dict :=
  <["type" := VStr "glb"]>
    (<["octree_resolution" := VInt 128]>
       (<["guidance_scale" := VFloat 5]>
          (<["num_inference_steps" := VInt 20]>
             (<["caption" := VStr caption]>
                (<["image" := VStr base64_image]> ∅))))).

(** What a call of a test function leaves: its return value, the content
    of the output file if it was opened, the number of status requests and
    the seconds slept. *)
Record run_result := RunResult {
  passed : bool;
  saved : option bytes;
  polls : nat;
  slept : nat;
}.

Inductive verdict :=
| Finished (result : bool) (file : option bytes)
| Pending.

(** One round of the polling loop of [test_async_api], after the status
    request: an answer that is not [ok] is skipped; an exception (no JSON,
    no [status] key, a [model_base64] that does not decode) ends the test
    with [False]; the output file is opened before its content is
    decoded. *)
Definition examine (decode : string → res bytes) (r : json_reply) : verdict :=
  if negb (reply_ok (reply_code r)) then Pending
  else
    match reply_json r with
    | None => Finished false None
    | Some status_data =>
        match status_data !! "status" with
        | None => Finished false None
        | Some status =>
            if eq_str status "completed"
            then
              let model_base64 := dict_get status_data "model_base64" in
              if negb (py_truthy model_base64) then Finished false None
              else
                match model_base64 with
                | VStr s =>
                    match decode s with
                    | Ok model => Finished true (Some model)
                    | Raise _ => Finished false (Some [])
                    end
                | _ => Finished false (Some [])
                end
            else if eq_str status "failed" then Finished false None
            else Pending
        end
    end.

(** The loop [while attempts < max_attempts]: [fuel] is
    [max_attempts - attempts], and [status n] answers the request made
    after [n] earlier ones. *)
Fixpoint poll (decode : string → res bytes) (status : nat → json_reply)
    (attempts fuel : nat) : run_result :=
  match fuel with
  | O => RunResult false None attempts 0
  | S fuel' =>
      match examine decode (status attempts) with
      | Finished result file => RunResult result file (S attempts) 0
      | Pending =>
          let r := poll decode status (S attempts) fuel' in
          RunResult (passed r) (saved r) (polls r) (5 + slept r)
      end
  end.

(** [test_async_api], given the encoded image ([None] when
    [encode_image] failed), the server's answer to [/send] and its answers
    to the status requests for a job identifier. *)
Definition test_async_api (decode : string → res bytes)
    (send : dict → json_reply) (status : pyval → nat → json_reply)
    (base64_image : option string) (caption : string) : run_result :=
  match base64_image with
  | None => RunResult false None 0 0
  | Some image =>
      if negb (truthy base64_image) then RunResult false None 0 0
      else
        let response := send (request_data image caption) in
        if negb (reply_ok (reply_code response))
        then RunResult false None 0 0
        else
          match reply_json response with
          | None => RunResult false None 0 0
          | Some job_data =>
              match job_data !! "uid" with
              | None => RunResult false None 0 0
              | Some job_id => poll decode (status job_id) 0 60
              end
          end
  end.

(** An answer after which the loop polls again: it is not [ok], or its
    [status] is a text other than completed and failed. *)
Definition in_progress (r : json_reply) : Prop :=
  reply_ok (reply_code r) = false
  ∨ ∃ status_data st,
      reply_json r = Some status_data
      ∧ status_data !! "status" = Some (VStr st)
      ∧ st ≠ "completed" ∧ st ≠ "failed".

(** [test_sync_api]: its return value and the content of the output
    file if it was opened. *)
Definition test_sync_api (generate : dict → stream_reply)
    (base64_image : option string) (caption : string)
    : bool * option bytes :=
  match base64_image with
  | None => (false, None)
  | Some image =>
      if negb (truthy base64_image) then (false, None)
      else
        let response := generate (request_data image caption) in
        if negb (reply_ok (stream_code response)) then (false, None)
        else
          (true,
           Some (foldl (λ file chunk : bytes, (file ++ chunk)%list) []
                   (stream_chunks response)))
  end.

(** [test_health] *)
Definition test_health (response : json_reply) : bool :=
  if negb (reply_ok (reply_code response)) then false
  else
    match reply_json response with
    | None => false
    | Some _ => true
    end.

(** The [parameters] dictionary of [test_huggingface_api]. *)
Definition direct_parameters (caption : string) : dict :=
  <["randomize_seed" := VBool true]>
    (<["num_chunks" := VInt 4000]>
       (<["check_box_rembg" := VBool true]>
          (<["octree_resolution" := VInt 128]>
             (<["guidance_scale" := VFloat 5]>
                (<["steps" := VInt 20]>
                   (<["caption" := VStr caption]> ∅)))))).

(** The process after a submission to [w], and after the run of the
    background task that the submission scheduled. *)
Definition after_send (E : Env) (request : GenerateRequest) (w : world)
    : world :=
  (send_job E request w).2.

Definition after_run (E : Env) (request : GenerateRequest) (w : world)
    : world :=
  (process_job E (uuid4 E (issued w)) request (after_send E request w)).2.

(** The answers a status request for the submitted job can get before the
    run has ended: the one of the table as [send_job] left it, or the one
    of a table seen at a suspension of the run. *)
Definition in_flight (E : Env) (request : GenerateRequest) (w : world)
    (r : json_reply) : Prop :=
  r = respond_status
        (get_job_status (uuid4 E (issued w)) (after_send E request w))
  ∨ ∃ t,
      t ∈ drop (length (seen (after_send E request w)))
            (seen (after_run E request w))
      ∧ r = respond_status
              (get_job_status (uuid4 E (issued w)) (with_jobs t)).

(** *** A sample server for the test client *)

(** It takes the submission on a fresh process, answers the first status
    request before the job's run, the second at the suspension of the run
    and all later ones after it. *)
Definition sample_send (E : Env) (request : GenerateRequest)
    : dict → json_reply :=
  λ _, respond_json (send_job E request empty_world).1.

Definition sample_answers (E : Env) (request : GenerateRequest)
    (job_id : pyval) (i : nat) : json_reply :=
  match job_id with
  | VStr id =>
      match i with
      | 0%nat =>
          respond_status
            (get_job_status id (after_send E request empty_world))
      | 1%nat =>
          respond_status
            (get_job_status id
               (with_jobs
                  (default ∅ (last (seen (after_run E request empty_world))))))
      | _ =>
          respond_status (get_job_status id (after_run E request empty_world))
      end
  | _ => JsonReply 404 None
  end.

(** * Properties of the embedding *)

(** ** Running the executor *)

Section Execution.

Variable E : Env.

Lemma logged_nil w job_id :
  logged w job_id [] (invocations w) (calls w) (seen w) (clock w) = w.
Proof.
  destruct w. unfold logged.
  cbn [jobs history invocations calls seen clock issued background_tasks
       last fmap list_fmap].
  by rewrite app_nil_r.
Qed.

Lemma setitem_logged w job_id rec recs inv cs sn ticks key v cur :
  jobs w !! job_id = Some rec →
  last (rec :: recs) = Some cur →
  setitem job_id key v (logged w job_id recs inv cs sn ticks)
  = (Ok (), logged w job_id (recs ++ [<[key := v]> cur]) inv cs sn ticks).
Proof.
  intros Hrec Hcur. unfold setitem, set_job, logged.
  cbn [jobs history invocations calls seen clock issued background_tasks].
  rewrite last_snoc, fmap_app, app_assoc.
  destruct recs as [|rec' recs _] using rev_ind.
  - cbn in Hcur. injection Hcur as <-. cbn [last]. by rewrite Hrec.
  - rewrite app_comm_cons, last_snoc in Hcur. injection Hcur as <-.
    by rewrite last_snoc, lookup_insert_eq, insert_insert_eq.
Qed.

Lemma time_logged w job_id recs inv cs sn ticks :
  time E (logged w job_id recs inv cs sn ticks)
  = (Ok (time_time E ticks), logged w job_id recs inv cs sn (S ticks)).
Proof. reflexivity. Qed.

(** What a call of the generator client returns and leaves: without a
    credential it raises at once; otherwise it makes one backend call,
    during which the coroutine is suspended, and wraps what the call
    raises. *)
Lemma generate_3d_model_run image_data cap sd oct steps scale algo tex out w :
  generate_3d_model E image_data cap sd oct steps scale algo tex out w
  = if truthy (HUGGINGFACE_API_KEY E)
    then
      (match
         client_post E (length (calls w))
           (PostCall image_data (parameters cap sd oct steps scale)
              (opt VStr out) true)
       with
       | Ok model_data => Ok model_data
       | Raise e => Raise (Exception ("Error generating 3D model: " +:+ str e))
       end,
       World (jobs w) (history w)
         (invocations w
          ++ [ClientArgs image_data cap sd oct steps scale algo tex out])
         (calls w
          ++ [PostCall image_data (parameters cap sd oct steps scale)
                (opt VStr out) true])
         (seen w ++ [jobs w]) (clock w) (issued w) (background_tasks w))
    else
      (Raise (ValueError "HUGGINGFACE_API_KEY is not set"),
       World (jobs w) (history w)
         (invocations w
          ++ [ClientArgs image_data cap sd oct steps scale algo tex out])
         (calls w) (seen w) (clock w) (issued w) (background_tasks w)).
Proof.
  unfold generate_3d_model, bind, enter.
  destruct (truthy (HUGGINGFACE_API_KEY E)); cbn [negb]; [|done].
  unfold try_except, post, raise.
  cbn [jobs history invocations calls seen clock issued background_tasks].
  by destruct (client_post E _ _).
Qed.

Lemma generate_3d_model_frame image_data cap sd oct steps scale algo tex
    out w :
  jobs (generate_3d_model E image_data cap sd oct steps scale algo tex out
          w).2 = jobs w
  ∧ history (generate_3d_model E image_data cap sd oct steps scale algo tex
               out w).2 = history w
  ∧ background_tasks
      (generate_3d_model E image_data cap sd oct steps scale algo tex out
         w).2 = background_tasks w.
Proof.
  rewrite generate_3d_model_run.
  by destruct (truthy (HUGGINGFACE_API_KEY E)).
Qed.

Lemma generate_3d_model_logged w job_id recs inv cs sn ticks image_data cap
    sd oct steps scale algo tex out :
  generate_3d_model E image_data cap sd oct steps scale algo tex out
    (logged w job_id recs inv cs sn ticks)
  = if truthy (HUGGINGFACE_API_KEY E)
    then
      (match
         client_post E (length cs)
           (PostCall image_data (parameters cap sd oct steps scale)
              (opt VStr out) true)
       with
       | Ok model_data => Ok model_data
       | Raise e => Raise (Exception ("Error generating 3D model: " +:+ str e))
       end,
       logged w job_id recs
         (inv ++ [ClientArgs image_data cap sd oct steps scale algo tex out])
         (cs
          ++ [PostCall image_data (parameters cap sd oct steps scale)
                (opt VStr out) true])
         (sn ++ [jobs (logged w job_id recs inv cs sn ticks)]) ticks)
    else
      (Raise (ValueError "HUGGINGFACE_API_KEY is not set"),
       logged w job_id recs
         (inv ++ [ClientArgs image_data cap sd oct steps scale algo tex out])
         cs sn ticks).
Proof.
  rewrite generate_3d_model_run.
  by destruct (truthy (HUGGINGFACE_API_KEY E)).
Qed.

Ltac exec Hrec :=
  repeat
    (first
       [ erewrite (setitem_logged _ _ _ _ _ _ _ _ _ _ _ Hrec) by reflexivity
       | rewrite time_logged ];
     cbn [app]; cbv beta iota).

(** The four ways the [try] block of [process_job] goes on a known job:
    the image does not decode, the credential is missing, the backend call
    raises, or it answers. *)
Lemma process_job_body_cases w job_id request rec :
  jobs w !! job_id = Some rec →
  (∃ e,
      b64decode E (image request) = Raise e
      ∧ process_job_body E job_id request w
        = (Raise e,
           logged w job_id (scan rec starting) (invocations w) (calls w)
             (seen w) (clock w)))
  ∨ (∃ image_data,
      b64decode E (image request) = Ok image_data
      ∧ truthy (HUGGINGFACE_API_KEY E) = false
      ∧ process_job_body E job_id request w
        = (Raise (ValueError "HUGGINGFACE_API_KEY is not set"),
           logged w job_id (scan rec (starting ++ calling))
             (invocations w ++ [args_for image_data request])
             (calls w) (seen w) (clock w)))
  ∨ (∃ image_data e,
      b64decode E (image request) = Ok image_data
      ∧ truthy (HUGGINGFACE_API_KEY E) = true
      ∧ client_post E (length (calls w)) (call_for image_data request)
        = Raise e
      ∧ process_job_body E job_id request w
        = (Raise (Exception ("Error generating 3D model: " +:+ str e)),
           logged w job_id (scan rec (starting ++ calling))
             (invocations w ++ [args_for image_data request])
             (calls w ++ [call_for image_data request])
             (seen w
              ++ [<[job_id := after rec (starting ++ calling)]> (jobs w)])
             (clock w)))
  ∨ (∃ image_data model_data,
      b64decode E (image request) = Ok image_data
      ∧ truthy (HUGGINGFACE_API_KEY E) = true
      ∧ client_post E (length (calls w)) (call_for image_data request)
        = Ok model_data
      ∧ process_job_body E job_id request w
        = (Ok (),
           logged w job_id
             (scan rec
                (starting ++ calling
                 ++ finishing model_data (time_time E (clock w))))
             (invocations w ++ [args_for image_data request])
             (calls w ++ [call_for image_data request])
             (seen w
              ++ [<[job_id := after rec (starting ++ calling)]> (jobs w)])
             (S (clock w)))).
Proof.
  intros Hrec.
  assert (Hrun : process_job_body E job_id request w
    = process_job_body E job_id request
        (logged w job_id [] (invocations w) (calls w) (seen w) (clock w)))
    by (by rewrite logged_nil).
  rewrite Hrun. clear Hrun.
  unfold process_job_body, bind, lift. exec Hrec.
  destruct (b64decode E (image request)) as [image_data|e];
    [|left; by exists e].
  right. rewrite generate_3d_model_logged.
  fold (args_for image_data request).
  destruct (truthy (HUGGINGFACE_API_KEY E)); [|left; by exists image_data].
  right. fold (call_for image_data request) (args_for image_data request).
  destruct (client_post E (length (calls w)) (call_for image_data request))
    as [model_data|e] eqn:Hpost; exec Hrec.
  - right. by exists image_data, model_data.
  - left. by exists image_data, e.
Qed.

Lemma process_job_except_logged w job_id rec recs inv cs sn ticks cur e :
  jobs w !! job_id = Some rec →
  last (rec :: recs) = Some cur →
  process_job_except job_id e (logged w job_id recs inv cs sn ticks)
  = (Ok (),
     logged w job_id (recs ++ scan cur (failing job_id e)) inv cs sn ticks).
Proof.
  intros Hrec Hcur. unfold process_job_except, bind.
  erewrite (setitem_logged _ _ _ _ _ _ _ _ _ _ _ Hrec) by exact Hcur.
  cbv beta iota.
  repeat (erewrite (setitem_logged _ _ _ _ _ _ _ _ _ _ _ Hrec)
            by (by rewrite app_comm_cons, last_snoc);
          cbv beta iota).
  by rewrite <- !app_assoc.
Qed.

(** The same four ways for the whole of [process_job]: a failure of the
    [try] block is followed by the assignments of the [except] block, and
    the call returns normally. *)
Lemma process_job_cases w job_id request rec :
  jobs w !! job_id = Some rec →
  (∃ e,
      b64decode E (image request) = Raise e
      ∧ (process_job_body E job_id request w).1 = Raise e
      ∧ process_job E job_id request w
        = (Ok (),
           logged w job_id (scan rec (starting ++ failing job_id e))
             (invocations w) (calls w) (seen w) (clock w)))
  ∨ (∃ image_data e,
      b64decode E (image request) = Ok image_data
      ∧ truthy (HUGGINGFACE_API_KEY E) = false
      ∧ e = ValueError "HUGGINGFACE_API_KEY is not set"
      ∧ (process_job_body E job_id request w).1 = Raise e
      ∧ process_job E job_id request w
        = (Ok (),
           logged w job_id
             (scan rec (starting ++ calling ++ failing job_id e))
             (invocations w ++ [args_for image_data request])
             (calls w) (seen w) (clock w)))
  ∨ (∃ image_data e0 e,
      b64decode E (image request) = Ok image_data
      ∧ truthy (HUGGINGFACE_API_KEY E) = true
      ∧ client_post E (length (calls w)) (call_for image_data request)
        = Raise e0
      ∧ e = Exception ("Error generating 3D model: " +:+ str e0)
      ∧ (process_job_body E job_id request w).1 = Raise e
      ∧ process_job E job_id request w
        = (Ok (),
           logged w job_id
             (scan rec (starting ++ calling ++ failing job_id e))
             (invocations w ++ [args_for image_data request])
             (calls w ++ [call_for image_data request])
             (seen w
              ++ [<[job_id := after rec (starting ++ calling)]> (jobs w)])
             (clock w)))
  ∨ (∃ image_data model_data,
      b64decode E (image request) = Ok image_data
      ∧ truthy (HUGGINGFACE_API_KEY E) = true
      ∧ client_post E (length (calls w)) (call_for image_data request)
        = Ok model_data
      ∧ (process_job_body E job_id request w).1 = Ok ()
      ∧ process_job E job_id request w
        = (Ok (),
           logged w job_id
             (scan rec
                (starting ++ calling
                 ++ finishing model_data (time_time E (clock w))))
             (invocations w ++ [args_for image_data request])
             (calls w ++ [call_for image_data request])
             (seen w
              ++ [<[job_id := after rec (starting ++ calling)]> (jobs w)])
             (S (clock w)))).
Proof.
  intros Hrec. unfold process_job, try_except.
  destruct (process_job_body_cases w job_id request rec Hrec)
    as [(e & Hdec & ->)
       | [(img & Hdec & Hkey & ->)
         | [(img & e & Hdec & Hkey & Hpost & ->)
           | (img & data & Hdec & Hkey & Hpost & ->)]]].
  - left. exists e. do 2 (split; [done|]).
    by erewrite (process_job_except_logged _ _ _ _ _ _ _ _ _ _ Hrec).
  - right; left. eexists img, _. do 4 (split; [done|]).
    by erewrite (process_job_except_logged _ _ _ _ _ _ _ _ _ _ Hrec).
  - right; right; left. eexists img, e, _. do 5 (split; [done|]).
    by erewrite (process_job_except_logged _ _ _ _ _ _ _ _ _ _ Hrec).
  - right; right; right. by exists img, data.
Qed.

(** *** Reading a run back *)

Lemma jobs_logged w job_id recs inv cs sn ticks rec :
  last recs = Some rec →
  jobs (logged w job_id recs inv cs sn ticks) = <[job_id := rec]> (jobs w).
Proof. intros Hlast. unfold logged. cbn [jobs]. by rewrite Hlast. Qed.

Lemma updates_logged w job_id recs inv cs sn ticks :
  updates job_id w (logged w job_id recs inv cs sn ticks) = recs.
Proof.
  unfold updates, logged. cbn [history]. rewrite drop_app_length.
  induction recs as [|rec recs IH]; [done|].
  cbn [fmap list_fmap]. rewrite filter_cons_True by done.
  cbn [fmap list_fmap snd]. by f_equal.
Qed.

Lemma observed_logged w job_id recs inv cs sn ticks :
  observed job_id w (logged w job_id recs inv cs (seen w ++ sn) ticks)
  = (.!! job_id) <$> sn.
Proof. unfold observed, logged. cbn [seen]. by rewrite drop_app_length. Qed.

Lemma observed_logged_none w job_id recs inv cs ticks :
  observed job_id w (logged w job_id recs inv cs (seen w) ticks) = [].
Proof.
  unfold observed, logged. cbn [seen]. by rewrite drop_all.
Qed.

Lemma lookup_scan_spec key rec ws :
  (.!! key) <$> scan rec ws = lookup_scan key (rec !! key) ws.
Proof.
  revert rec. induction ws as [|[k v] ws IH]; intros rec; [done|].
  cbn [scan lookup_scan fmap list_fmap]. rewrite IH.
  destruct (String.eqb_spec k key) as [->|Hne].
  - by rewrite lookup_insert_eq.
  - by rewrite lookup_insert_ne.
Qed.

Lemma status_scan rec ws :
  status_of <$> scan rec ws
  = (.≫= as_str) <$> lookup_scan "status" (rec !! "status") ws.
Proof. by rewrite <- lookup_scan_spec, <- list_fmap_compose. Qed.

Lemma progress_scan rec ws :
  progress_of <$> scan rec ws
  = (.≫= as_int) <$> lookup_scan "progress" (rec !! "progress") ws.
Proof. by rewrite <- lookup_scan_spec, <- list_fmap_compose. Qed.

(** The first component of a call of the generator client. *)
Lemma generate_3d_model_result image_data request w :
  (generate_3d_model E image_data (caption request) (seed request)
     (octree_resolution request) (num_inference_steps request)
     (guidance_scale request) (mc_algo request) (texture request)
     (type request) w).1
  = if truthy (HUGGINGFACE_API_KEY E)
    then
      match client_post E (length (calls w)) (call_for image_data request) with
      | Ok model_data => Ok model_data
      | Raise e => Raise (Exception ("Error generating 3D model: " +:+ str e))
      end
    else Raise (ValueError "HUGGINGFACE_API_KEY is not set").
Proof.
  rewrite generate_3d_model_run. unfold call_for.
  by destruct (truthy (HUGGINGFACE_API_KEY E)).
Qed.

End Execution.

Ltac lookups :=
  unfold status_of, progress_of;
  repeat first [rewrite lookup_insert_eq | rewrite lookup_insert_ne by done].

Ltac same_map :=
  apply map_eq; intros ?; rewrite !lookup_insert;
  repeat (case_decide; subst; try done).

(** Splits a run of [process_job] on a known job into its four ways and
    replaces the run by the world it leaves. *)
Ltac run_cases E w job_id request rec Hrec :=
  destruct (process_job_cases E w job_id request rec Hrec)
    as [(exc & Hdec & Hbody & Hrun)
       | [(img & exc & Hdec & Hkey & Hexc & Hbody & Hrun)
         | [(img & exc0 & exc & Hdec & Hkey & Hpost & Hexc & Hbody & Hrun)
           | (img & data & Hdec & Hkey & Hpost & Hbody & Hrun)]]];
  rewrite ?Hrun; cbn [fst snd].

(** ** The entries a run touches *)

(** On an identifier that the table does not hold, the [try] block and
    then the [except] block raise [KeyError] at their first assignment:
    the error leaves [process_job] and nothing is written. *)
Lemma process_job_unknown E w job_id request :
  jobs w !! job_id = None →
  process_job E job_id request w = (Raise (KeyError job_id), w).
Proof.
  intros Hnone.
  unfold process_job, try_except, process_job_body, process_job_except,
    bind, setitem.
  rewrite Hnone. cbv beta iota. by rewrite Hnone.
Qed.

(** A run of [process_job] leaves the entries of all other jobs alone. *)
Lemma process_job_other_jobs E w job_id request other :
  other ≠ job_id →
  jobs (process_job E job_id request w).2 !! other = jobs w !! other.
Proof.
  intros Hne. destruct (jobs w !! job_id) as [rec|] eqn:Hrec.
  - run_cases E w job_id request rec Hrec;
      (erewrite jobs_logged by reflexivity); by rewrite lookup_insert_ne.
  - by rewrite process_job_unknown.
Qed.

(** ** The order of states *)

(** C1. Started on a queued record, [process_job] takes the record through
    the states queued, processing and then exactly one of completed and
    failed: the list of states after the initial record and after each
    assignment, equal neighbours counted once, is one of these two
    sequences.  So no assignment skips processing, writes queued again, or
    moves between the terminal states. *)
Theorem process_job_state_order E w job_id request rec :
  jobs w !! job_id = Some rec →
  status_of rec = Some "queued" →
  compress
    (status_of
       <$> rec :: updates job_id w (process_job E job_id request w).2)
  = [Some "queued"; Some "processing"; Some "completed"]
  ∨ compress
      (status_of
         <$> rec :: updates job_id w (process_job E job_id request w).2)
    = [Some "queued"; Some "processing"; Some "failed"].
Proof.
  intros Hrec Hqueued.
  run_cases E w job_id request rec Hrec;
    rewrite updates_logged, fmap_cons, status_scan, Hqueued.
  - right. reflexivity.
  - right. reflexivity.
  - right. reflexivity.
  - left. reflexivity.
Qed.

Lemma process_job_state_order_witness :
  jobs (submitted env_ok req_ok) !! "job-0"
  = Some (queued_record (sample_clock 0) req_ok)
  ∧ status_of (queued_record (sample_clock 0) req_ok) = Some "queued"
  ∧ (compress
       (status_of
          <$> queued_record (sample_clock 0) req_ok
              :: updates "job-0" (submitted env_ok req_ok)
                   (process_job env_ok "job-0" req_ok
                      (submitted env_ok req_ok)).2)
     = [Some "queued"; Some "processing"; Some "completed"]
     ∨ compress
         (status_of
            <$> queued_record (sample_clock 0) req_ok
                :: updates "job-0" (submitted env_ok req_ok)
                     (process_job env_ok "job-0" req_ok
                        (submitted env_ok req_ok)).2)
       = [Some "queued"; Some "processing"; Some "failed"]).
Proof.
  split; [reflexivity|]. split; [reflexivity|].
  apply process_job_state_order; reflexivity.
Defined.

(** The states of a completed and of a failed sample job. *)
Example states_of_completed_job :
  compress
    (status_of
       <$> queued_record (sample_clock 0) req_ok
           :: updates "job-0" (submitted env_ok req_ok)
                (process_job env_ok "job-0" req_ok
                   (submitted env_ok req_ok)).2)
  = [Some "queued"; Some "processing"; Some "completed"].
Proof. reflexivity. Qed.

Example states_of_failed_job :
  compress
    (status_of
       <$> queued_record (sample_clock 0) req_bad_image
           :: updates "job-0" (submitted env_ok req_bad_image)
                (process_job env_ok "job-0" req_bad_image
                   (submitted env_ok req_bad_image)).2)
  = [Some "queued"; Some "processing"; Some "failed"].
Proof. reflexivity. Qed.

(** ** Result and error of a finished job *)

Lemma b64encode_nonempty (s : bytes) : s ≠ [] → b64encode s ≠ "".
Proof. destruct s as [|a [|b [|c rest]]]; [done|..]; by intros _. Qed.

(** With a backend that answers with no bytes, the job completes and its
    [model_base64] is the empty string. *)
Lemma empty_artifact_empty_result :
  jobs (process_job env_empty_artifact "job-0" req_ok
          (submitted env_empty_artifact req_ok)).2 !! "job-0" ≫= status_of
  = Some "completed"
  ∧ jobs (process_job env_empty_artifact "job-0" req_ok
            (submitted env_empty_artifact req_ok)).2 !! "job-0"
    ≫= (.!! "model_base64")
    = Some (VStr "").
Proof. split; reflexivity. Qed.

(** C2.  With a backend that answers with no bytes, [process_job] records
    the job as completed with progress 100, no [error], and the empty
    string as [model_base64]: a completed job whose result is empty.
    [get_job_status] reports it so, and the polling loop of
    [test_async_api] takes that very answer as an error ("Model data not
    found in response"): it ends with [False] and does not open the
    output file. *)
Theorem process_job_empty_artifact :
  jobs (process_job env_empty_artifact "job-0" req_ok
          (submitted env_empty_artifact req_ok)).2 !! "job-0"
  = Some
      (<["completed_at" := VFloat (sample_clock 1)]>
         (<["model_base64" := VStr ""]>
            (<["message" := VStr "Model generation completed"]>
               (<["progress" := VInt 100]>
                  (<["status" := VStr "completed"]>
                     (queued_record (sample_clock 0) req_ok))))))
  ∧ get_job_status "job-0"
      (process_job env_empty_artifact "job-0" req_ok
         (submitted env_empty_artifact req_ok)).2
    = Returned
        {| status := VStr "completed";
           progress := VInt 100;
           message := VStr "Model generation completed";
           model_base64 := VStr "";
           error := VNone |}
  ∧ examine py_b64decode
      (respond_status
         (get_job_status "job-0"
            (process_job env_empty_artifact "job-0" req_ok
               (submitted env_empty_artifact req_ok)).2))
    = Finished false None.
Proof. split; [vm_compute; reflexivity|split; reflexivity]. Qed.

(** Between the assignment of the state completed and the assignment of
    [model_base64] the record is completed without a result: the states
    and results after each assignment of a successful run.  The run is
    not suspended there: the one time other tasks can look at the record,
    its state is processing. *)
Example completed_before_model_base64 :
  (λ r, (status_of r, r !! "model_base64"))
  <$> updates "job-0" (submitted env_ok req_ok)
        (process_job env_ok "job-0" req_ok (submitted env_ok req_ok)).2
  = [(Some "processing", None); (Some "processing", None);
     (Some "processing", None); (Some "processing", None);
     (Some "processing", None); (Some "processing", None);
     (Some "processing", None); (Some "completed", None);
     (Some "completed", None); (Some "completed", None);
     (Some "completed", Some (VStr "AQI="));
     (Some "completed", Some (VStr "AQI="))]
  ∧ (.≫= status_of)
    <$> observed "job-0" (submitted env_ok req_ok)
          (process_job env_ok "job-0" req_ok (submitted env_ok req_ok)).2
    = [Some "processing"].
Proof. split; vm_compute; reflexivity. Qed.

(** Everything else the invariant asks for holds wherever the record can
    be looked at.  For a job queued without result or error: when
    [process_job] returns, the record is completed or failed and holds
    exactly one of [model_base64] and [error].  A completed record holds
    the base64 text of the generator's artifact, which is non-empty
    whenever the artifact is, and no [error]; a failed record holds a
    non-empty [error] and no [model_base64].  A record whose state is
    queued or processing holds neither, after the initial record and after
    every assignment; and whenever other tasks can see the table during
    the run, the record is in state processing with neither field. *)
Theorem process_job_result_xor_error E w job_id request rec :
  jobs w !! job_id = Some rec →
  status_of rec = Some "queued" →
  rec !! "model_base64" = None →
  rec !! "error" = None →
  (∃ final,
      jobs (process_job E job_id request w).2 !! job_id = Some final
      ∧ ((status_of final = Some "completed"
          ∧ (∃ image_data model_data,
                b64decode E (image request) = Ok image_data
                ∧ (generate_3d_model E image_data (caption request)
                     (seed request) (octree_resolution request)
                     (num_inference_steps request) (guidance_scale request)
                     (mc_algo request) (texture request) (type request) w).1
                  = Ok model_data
                ∧ final !! "model_base64"
                  = Some (VStr (b64encode model_data))
                ∧ (model_data ≠ [] → b64encode model_data ≠ ""))
          ∧ final !! "error" = None)
         ∨ (status_of final = Some "failed"
            ∧ (∃ msg, final !! "error" = Some (VStr msg) ∧ msg ≠ "")
            ∧ final !! "model_base64" = None)))
  ∧ Forall
      (λ r, status_of r = Some "queued" ∨ status_of r = Some "processing" →
            r !! "model_base64" = None ∧ r !! "error" = None)
      (rec :: updates job_id w (process_job E job_id request w).2)
  ∧ Forall
      (λ o, ∃ r, o = Some r
                 ∧ status_of r = Some "processing"
                 ∧ r !! "model_base64" = None
                 ∧ r !! "error" = None)
      (observed job_id w (process_job E job_id request w).2).
Proof.
  intros Hrec Hqueued Hresult Herror.
  run_cases E w job_id request rec Hrec;
    rewrite updates_logged; (split; [eexists; split|split]).
  - erewrite jobs_logged by reflexivity. apply lookup_insert_eq.
  - right. lookups. split; [done|]. split; [|done].
    eexists. split; [reflexivity|]. by cbn.
  - cbn [scan starting failing app].
    repeat (constructor; [lookups; by intros [?|?]|]). constructor.
  - rewrite observed_logged_none. constructor.
  - erewrite jobs_logged by reflexivity. apply lookup_insert_eq.
  - right. lookups. split; [done|]. split; [|done].
    eexists. split; [reflexivity|]. by cbn.
  - cbn [scan starting calling failing app].
    repeat (constructor; [lookups; by intros [?|?]|]). constructor.
  - rewrite observed_logged_none. constructor.
  - erewrite jobs_logged by reflexivity. apply lookup_insert_eq.
  - right. lookups. split; [done|]. split; [|done].
    eexists. split; [reflexivity|]. by cbn.
  - cbn [scan starting calling failing app].
    repeat (constructor; [lookups; by intros [?|?]|]). constructor.
  - rewrite observed_logged. cbn [fmap list_fmap].
    rewrite lookup_insert_eq. constructor; [|constructor].
    eexists. split; [reflexivity|].
    unfold after. cbn [foldl starting calling app fst snd]. by lookups.
  - erewrite jobs_logged by reflexivity. apply lookup_insert_eq.
  - left. lookups. split; [done|]. split; [|done].
    exists img, data. rewrite generate_3d_model_result, Hkey, Hpost.
    do 3 (split; [done|]). apply b64encode_nonempty.
  - cbn [scan starting calling finishing app].
    repeat (constructor; [lookups; by intros [?|?]|]). constructor.
  - rewrite observed_logged. cbn [fmap list_fmap].
    rewrite lookup_insert_eq. constructor; [|constructor].
    eexists. split; [reflexivity|].
    unfold after. cbn [foldl starting calling app fst snd]. by lookups.
Qed.

Lemma process_job_result_xor_error_witness :
  let w := submitted env_ok req_ok in
  let rec := queued_record (sample_clock 0) req_ok in
  jobs w !! "job-0" = Some rec
  ∧ status_of rec = Some "queued"
  ∧ rec !! "model_base64" = None
  ∧ rec !! "error" = None
  ∧ (∃ final,
        jobs (process_job env_ok "job-0" req_ok w).2 !! "job-0" = Some final
        ∧ ((status_of final = Some "completed"
            ∧ (∃ image_data model_data,
                  b64decode env_ok (image req_ok) = Ok image_data
                  ∧ (generate_3d_model env_ok image_data (caption req_ok)
                       (seed req_ok) (octree_resolution req_ok)
                       (num_inference_steps req_ok) (guidance_scale req_ok)
                       (mc_algo req_ok) (texture req_ok) (type req_ok) w).1
                    = Ok model_data
                  ∧ final !! "model_base64"
                    = Some (VStr (b64encode model_data))
                  ∧ (model_data ≠ [] → b64encode model_data ≠ ""))
            ∧ final !! "error" = None)
           ∨ (status_of final = Some "failed"
              ∧ (∃ msg, final !! "error" = Some (VStr msg) ∧ msg ≠ "")
              ∧ final !! "model_base64" = None)))
    ∧ Forall
        (λ r, status_of r = Some "queued" ∨ status_of r = Some "processing" →
              r !! "model_base64" = None ∧ r !! "error" = None)
        (rec :: updates "job-0" w (process_job env_ok "job-0" req_ok w).2)
    ∧ Forall
        (λ o, ∃ r, o = Some r
                   ∧ status_of r = Some "processing"
                   ∧ r !! "model_base64" = None
                   ∧ r !! "error" = None)
        (observed "job-0" w (process_job env_ok "job-0" req_ok w).2).
Proof.
  cbv zeta. do 4 (split; [reflexivity|]).
  apply process_job_result_xor_error; reflexivity.
Defined.

(** ** Failure and success of a run *)

(** C3.  When the [try] block of [process_job] raises [e] on a known job
    (the image does not decode, or the generator client raises),
    [process_job] itself returns normally; the record becomes the initial
    record with [status] failed, [progress] 0, [message] "Model generation
    failed" and [error] set to a non-empty text that ends with [str(e)],
    every other field (such as [completed_at]) being as it was; the
    generator client was called at most once, at most one backend call was
    issued and no task was scheduled again. *)
Theorem process_job_failure_recorded E w job_id request rec e :
  jobs w !! job_id = Some rec →
  (process_job_body E job_id request w).1 = Raise e →
  ∃ w',
    process_job E job_id request w = (Ok (), w')
    ∧ jobs w'
      = <[job_id :=
            <["error" :=
                VStr ("Error processing job " +:+ job_id +:+ ": " +:+ str e)]>
              (<["message" := VStr "Model generation failed"]>
                 (<["progress" := VInt 0]>
                    (<["status" := VStr "failed"]> rec)))]> (jobs w)
    ∧ "Error processing job " +:+ job_id +:+ ": " +:+ str e ≠ ""
    ∧ (∀ final key,
          jobs w' !! job_id = Some final →
          key ∉ ["status"; "progress"; "message"; "error"] →
          final !! key = rec !! key)
    ∧ (length (invocations w') ≤ S (length (invocations w)))%nat
    ∧ (length (calls w') ≤ S (length (calls w)))%nat
    ∧ background_tasks w' = background_tasks w.
Proof.
  intros Hrec Hraise.
  assert (Hother : ∀ (final : dict) key,
    <[job_id :=
        <["error" :=
            VStr ("Error processing job " +:+ job_id +:+ ": " +:+ str e)]>
          (<["message" := VStr "Model generation failed"]>
             (<["progress" := VInt 0]>
                (<["status" := VStr "failed"]> rec)))]> (jobs w) !! job_id
    = Some final →
    key ∉ ["status"; "progress"; "message"; "error"] →
    final !! key = rec !! key).
  { intros final key Hfinal Hkey. rewrite lookup_insert_eq in Hfinal.
    injection Hfinal as <-.
    rewrite !not_elem_of_cons in Hkey. destruct Hkey as (? & ? & ? & ? & _).
    by rewrite !lookup_insert_ne. }
  run_cases E w job_id request rec Hrec;
    rewrite Hbody in Hraise; try done; injection Hraise as <-;
    eexists; (split; [reflexivity|]);
    (erewrite jobs_logged by reflexivity);
    match goal with
    | |- ?l = ?r ∧ _ =>
        assert (Heq : l = r) by (f_equal; subst; same_map); rewrite Heq
    end;
    (do 2 (split; [done|])); (split; [exact Hother|]);
    unfold logged; cbn [invocations calls background_tasks];
    rewrite ?length_app; cbn [length]; (do 2 (split; [lia|])); done.
Qed.

Lemma process_job_failure_recorded_witness :
  let w := submitted env_backend_down req_ok in
  let rec := queued_record (sample_clock 0) req_ok in
  let e := Exception "Error generating 3D model: 503 Service Unavailable" in
  jobs w !! "job-0" = Some rec
  ∧ (process_job_body env_backend_down "job-0" req_ok w).1 = Raise e
  ∧ ∃ w',
      process_job env_backend_down "job-0" req_ok w = (Ok (), w')
      ∧ jobs w'
        = <["job-0" :=
              <["error" :=
                  VStr ("Error processing job " +:+ "job-0" +:+ ": "
                        +:+ str e)]>
                (<["message" := VStr "Model generation failed"]>
                   (<["progress" := VInt 0]>
                      (<["status" := VStr "failed"]> rec)))]> (jobs w)
      ∧ "Error processing job " +:+ "job-0" +:+ ": " +:+ str e ≠ ""
      ∧ (∀ final key,
            jobs w' !! "job-0" = Some final →
            key ∉ ["status"; "progress"; "message"; "error"] →
            final !! key = rec !! key)
      ∧ (length (invocations w') ≤ S (length (invocations w)))%nat
      ∧ (length (calls w') ≤ S (length (calls w)))%nat
      ∧ background_tasks w' = background_tasks w.
Proof.
  cbv zeta. do 2 (split; [reflexivity|]).
  apply process_job_failure_recorded; reflexivity.
Defined.

(** The same on an image that does not decode, and without a
    credential. *)
Example process_job_bad_image :
  (process_job_body env_ok "job-0" req_bad_image
     (submitted env_ok req_bad_image)).1
  = Raise
      (BinasciiError
         "Invalid base64-encoded string: number of data characters (1) cannot be 1 more than a multiple of 4")
  ∧ (process_job env_ok "job-0" req_bad_image
       (submitted env_ok req_bad_image)).1 = Ok ()
  ∧ jobs (process_job env_ok "job-0" req_bad_image
            (submitted env_ok req_bad_image)).2 !! "job-0" ≫= status_of
    = Some "failed"
  ∧ calls (process_job env_ok "job-0" req_bad_image
             (submitted env_ok req_bad_image)).2 = [].
Proof. repeat split; reflexivity. Qed.

Example process_job_no_key :
  (process_job env_no_key "job-0" req_ok (submitted env_no_key req_ok)).1
  = Ok ()
  ∧ jobs (process_job env_no_key "job-0" req_ok
            (submitted env_no_key req_ok)).2 !! "job-0" ≫= (.!! "error")
    = Some
        (VStr "Error processing job job-0: HUGGINGFACE_API_KEY is not set")
  ∧ jobs (process_job env_no_key "job-0" req_ok
            (submitted env_no_key req_ok)).2 !! "job-0"
    ≫= (.!! "completed_at")
    = None.
Proof. repeat split; reflexivity. Qed.

(** C8.  When the image decodes and the generator client returns
    [model_data], [process_job] returns normally and leaves the initial
    record with [status] completed, [progress] 100, [message] "Model
    generation completed", [model_base64] the base64 text of [model_data]
    and [completed_at] the clock's reading. *)
Theorem process_job_success_recorded E w job_id request rec image_data
    model_data :
  jobs w !! job_id = Some rec →
  b64decode E (image request) = Ok image_data →
  (generate_3d_model E image_data (caption request) (seed request)
     (octree_resolution request) (num_inference_steps request)
     (guidance_scale request) (mc_algo request) (texture request)
     (type request) w).1 = Ok model_data →
  ∃ w',
    process_job E job_id request w = (Ok (), w')
    ∧ jobs w'
      = <[job_id :=
            <["completed_at" := VFloat (time_time E (clock w))]>
              (<["model_base64" := VStr (b64encode model_data)]>
                 (<["message" := VStr "Model generation completed"]>
                    (<["progress" := VInt 100]>
                       (<["status" := VStr "completed"]> rec))))]> (jobs w).
Proof.
  intros Hrec Hdecode Hgen. rewrite generate_3d_model_result in Hgen.
  run_cases E w job_id request rec Hrec;
    rewrite Hdecode in Hdec; try done; injection Hdec as <-;
    rewrite Hkey in Hgen; try done; rewrite Hpost in Hgen; try done.
  injection Hgen as <-.
  eexists. split; [reflexivity|].
  erewrite jobs_logged by reflexivity. f_equal. same_map.
Qed.

Lemma process_job_success_recorded_witness :
  let w := submitted env_ok req_ok in
  let rec := queued_record (sample_clock 0) req_ok in
  jobs w !! "job-0" = Some rec
  ∧ b64decode env_ok (image req_ok) = Ok ["M"; "a"; "n"]%byte
  ∧ (generate_3d_model env_ok ["M"; "a"; "n"]%byte (caption req_ok)
       (seed req_ok) (octree_resolution req_ok) (num_inference_steps req_ok)
       (guidance_scale req_ok) (mc_algo req_ok) (texture req_ok)
       (type req_ok) w).1 = Ok [x01; x02]
  ∧ ∃ w',
      process_job env_ok "job-0" req_ok w = (Ok (), w')
      ∧ jobs w'
        = <["job-0" :=
              <["completed_at" := VFloat (time_time env_ok (clock w))]>
                (<["model_base64" := VStr (b64encode [x01; x02])]>
                   (<["message" := VStr "Model generation completed"]>
                      (<["progress" := VInt 100]>
                         (<["status" := VStr "completed"]> rec))))]> (jobs w).
Proof.
  cbv zeta. do 3 (split; [reflexivity|]).
  eapply process_job_success_recorded; reflexivity.
Defined.

(** ** Progress *)

(** With a failing backend the progress of the record goes from 30 back
    to 0. *)
Lemma failed_job_progress_drops :
  progress_of
    <$> queued_record (sample_clock 0) req_ok
        :: updates "job-0" (submitted env_backend_down req_ok)
             (process_job env_backend_down "job-0" req_ok
                (submitted env_backend_down req_ok)).2
  = Some <$> [0; 0; 10; 10; 30; 30; 30; 0; 0; 0]
  ∧ nondecreasing [0; 0; 10; 10; 30; 30; 30; 0; 0; 0] = false.
Proof. split; reflexivity. Qed.

(** C4, amended.  Started on a record whose progress is 0, [process_job]
    keeps [progress] an integer between 0 and 100 after every assignment;
    along a run that ends completed it never decreases, and a run that
    ends failed leaves it at 0. *)
Theorem process_job_progress E w job_id request rec :
  jobs w !! job_id = Some rec →
  progress_of rec = Some 0 →
  ∃ ps final,
    progress_of
      <$> rec :: updates job_id w (process_job E job_id request w).2
    = Some <$> ps
    ∧ Forall (λ p, 0 ≤ p ≤ 100) ps
    ∧ jobs (process_job E job_id request w).2 !! job_id = Some final
    ∧ (status_of final = Some "completed" ∨ status_of final = Some "failed")
    ∧ (status_of final = Some "completed" → nondecreasing ps = true)
    ∧ (status_of final = Some "failed" → last ps = Some 0).
Proof.
  intros Hrec Hzero.
  assert (Hp : rec !! "progress" = Some (VInt 0)).
  { unfold progress_of in Hzero.
    destruct (rec !! "progress") as [[]|]; try done.
    cbn in Hzero. congruence. }
  run_cases E w job_id request rec Hrec;
    rewrite updates_logged, fmap_cons, progress_scan, Hzero, Hp;
    (erewrite jobs_logged by reflexivity); rewrite lookup_insert_eq.
  - exists [0; 0; 10; 10; 10; 0; 0; 0]. eexists.
    split; [reflexivity|]. split; [repeat constructor; lia|].
    split; [reflexivity|]. lookups. split; [by right|]. by split.
  - exists [0; 0; 10; 10; 30; 30; 30; 0; 0; 0]. eexists.
    split; [reflexivity|]. split; [repeat constructor; lia|].
    split; [reflexivity|]. lookups. split; [by right|]. by split.
  - exists [0; 0; 10; 10; 30; 30; 30; 0; 0; 0]. eexists.
    split; [reflexivity|]. split; [repeat constructor; lia|].
    split; [reflexivity|]. lookups. split; [by right|]. by split.
  - exists [0; 0; 10; 10; 30; 30; 80; 80; 80; 100; 100; 100; 100]. eexists.
    split; [reflexivity|]. split; [repeat constructor; lia|].
    split; [reflexivity|]. lookups. split; [by left|]. by split.
Qed.

Lemma process_job_progress_witness :
  let w := submitted env_ok req_ok in
  let rec := queued_record (sample_clock 0) req_ok in
  jobs w !! "job-0" = Some rec
  ∧ progress_of rec = Some 0
  ∧ ∃ ps final,
      progress_of
        <$> rec :: updates "job-0" w (process_job env_ok "job-0" req_ok w).2
      = Some <$> ps
      ∧ Forall (λ p, 0 ≤ p ≤ 100) ps
      ∧ jobs (process_job env_ok "job-0" req_ok w).2 !! "job-0" = Some final
      ∧ (status_of final = Some "completed"
         ∨ status_of final = Some "failed")
      ∧ (status_of final = Some "completed" → nondecreasing ps = true)
      ∧ (status_of final = Some "failed" → last ps = Some 0).
Proof.
  cbv zeta. do 2 (split; [reflexivity|]).
  apply process_job_progress; reflexivity.
Defined.

(** ** The backend call *)

(** Two requests that differ in [mc_algo] and [texture] only: the
    generator client receives the two pairs of values, and the backend
    calls it issues are the same. *)
Lemma mc_algo_texture_not_forwarded :
  (λ a, (arg_mc_algo a, arg_texture a))
    <$> invocations
          (process_job env_ok "job-0" req_ok (submitted env_ok req_ok)).2
  = [(Some "mc", Some false)]
  ∧ (λ a, (arg_mc_algo a, arg_texture a))
      <$> invocations
            (process_job env_ok "job-0" req_dmc (submitted env_ok req_dmc)).2
    = [(Some "dmc", Some true)]
  ∧ length
      (calls (process_job env_ok "job-0" req_ok (submitted env_ok req_ok)).2)
    = 1%nat
  ∧ calls (process_job env_ok "job-0" req_ok (submitted env_ok req_ok)).2
    = calls (process_job env_ok "job-0" req_dmc (submitted env_ok req_dmc)).2.
Proof. repeat split; reflexivity. Qed.

(** C5, amended.  On a known job whose image decodes, with a configured
    credential, [process_job] calls the generator client once, with the
    decoded image and every parameter of the request as the request holds
    it, and the client issues exactly one backend call; that call carries
    the decoded image, the caption, the seed (with [randomize_seed] false,
    or no seed and [randomize_seed] true when the request has none), the
    octree resolution, the guidance scale, the inference step count under
    the key [steps] and the output format, each as the request holds it.
    [mc_algo] and [texture] are not part of the backend call. *)
Theorem process_job_backend_call E w job_id request rec image_data :
  jobs w !! job_id = Some rec →
  b64decode E (image request) = Ok image_data →
  truthy (HUGGINGFACE_API_KEY E) = true →
  ∃ (a : client_args) (c : post_call),
    invocations (process_job E job_id request w).2
    = (invocations w ++ [a])%list
    ∧ arg_image_data a = image_data
    ∧ arg_caption a = caption request
    ∧ arg_seed a = seed request
    ∧ arg_octree_resolution a = octree_resolution request
    ∧ arg_num_inference_steps a = num_inference_steps request
    ∧ arg_guidance_scale a = guidance_scale request
    ∧ arg_mc_algo a = mc_algo request
    ∧ arg_texture a = texture request
    ∧ arg_output_type a = type request
    ∧ calls (process_job E job_id request w).2 = (calls w ++ [c])%list
    ∧ data_image c = image_data
    ∧ data_parameters c !! "caption" = Some (opt VStr (caption request))
    ∧ data_parameters c !! "seed" = VInt <$> seed request
    ∧ data_parameters c !! "randomize_seed"
      = Some (VBool (bool_decide (seed request = None)))
    ∧ data_parameters c !! "octree_resolution"
      = Some (opt VInt (octree_resolution request))
    ∧ data_parameters c !! "guidance_scale"
      = Some (opt VFloat (guidance_scale request))
    ∧ data_parameters c !! "steps"
      = Some (opt VInt (num_inference_steps request))
    ∧ data_output_type c = opt VStr (type request)
    ∧ data_parameters c !! "mc_algo" = None
    ∧ data_parameters c !! "texture" = None.
Proof.
  intros Hrec Hdecode Hcred.
  exists (args_for image_data request), (call_for image_data request).
  split; [|do 9 (split; [done|]); split].
  - run_cases E w job_id request rec Hrec;
      rewrite Hdecode in Hdec; try done; injection Hdec as <-;
      rewrite Hcred in Hkey; done.
  - run_cases E w job_id request rec Hrec;
      rewrite Hdecode in Hdec; try done; injection Hdec as <-;
      rewrite Hcred in Hkey; done.
  - unfold call_for.
    cbn [data_image data_parameters data_output_type].
    unfold parameters.
    destruct (seed request); cbn [fmap option_fmap option_map];
      lookups; repeat split; done.
Qed.

Lemma process_job_backend_call_witness :
  let w := submitted env_ok req_ok in
  let rec := queued_record (sample_clock 0) req_ok in
  jobs w !! "job-0" = Some rec
  ∧ b64decode env_ok (image req_ok) = Ok ["M"; "a"; "n"]%byte
  ∧ truthy (HUGGINGFACE_API_KEY env_ok) = true
  ∧ ∃ (a : client_args) (c : post_call),
      invocations (process_job env_ok "job-0" req_ok w).2
      = (invocations w ++ [a])%list
      ∧ arg_image_data a = ["M"; "a"; "n"]%byte
      ∧ arg_caption a = caption req_ok
      ∧ arg_seed a = seed req_ok
      ∧ arg_octree_resolution a = octree_resolution req_ok
      ∧ arg_num_inference_steps a = num_inference_steps req_ok
      ∧ arg_guidance_scale a = guidance_scale req_ok
      ∧ arg_mc_algo a = mc_algo req_ok
      ∧ arg_texture a = texture req_ok
      ∧ arg_output_type a = type req_ok
      ∧ calls (process_job env_ok "job-0" req_ok w).2 = (calls w ++ [c])%list
      ∧ data_image c = ["M"; "a"; "n"]%byte
      ∧ data_parameters c !! "caption" = Some (opt VStr (caption req_ok))
      ∧ data_parameters c !! "seed" = VInt <$> seed req_ok
      ∧ data_parameters c !! "randomize_seed"
        = Some (VBool (bool_decide (seed req_ok = None)))
      ∧ data_parameters c !! "octree_resolution"
        = Some (opt VInt (octree_resolution req_ok))
      ∧ data_parameters c !! "guidance_scale"
        = Some (opt VFloat (guidance_scale req_ok))
      ∧ data_parameters c !! "steps"
        = Some (opt VInt (num_inference_steps req_ok))
      ∧ data_output_type c = opt VStr (type req_ok)
      ∧ data_parameters c !! "mc_algo" = None
      ∧ data_parameters c !! "texture" = None.
Proof.
  cbv zeta. do 3 (split; [reflexivity|]).
  eapply process_job_backend_call; reflexivity.
Defined.

(** ** Submission *)

(** A second submission that draws the identifier of a completed job
    succeeds and replaces the completed record by a queued one. *)
Lemma send_job_replaces_existing :
  jobs (process_job env_colliding "job-0" req_ok
          (submitted env_colliding req_ok)).2 !! "job-0" ≫= status_of
  = Some "completed"
  ∧ (send_job env_colliding req_dmc
       (process_job env_colliding "job-0" req_ok
          (submitted env_colliding req_ok)).2).1
    = Returned [("uid", VStr "job-0"); ("status", VStr "queued")]
  ∧ jobs (send_job env_colliding req_dmc
            (process_job env_colliding "job-0" req_ok
               (submitted env_colliding req_ok)).2).2 !! "job-0"
    = Some (queued_record (sample_clock 2) req_dmc).
Proof. repeat split; reflexivity. Qed.

(** C6, amended.  [send_job] never fails: it answers with the identifier
    it drew and the state queued, stores the queued record under that
    identifier whether or not the table already has a record there,
    leaves every other entry as it was and schedules [process_job] for the
    identifier. *)
Theorem send_job_stores_queued E request w :
  (send_job E request w).1
  = Returned [("uid", VStr (uuid4 E (issued w))); ("status", VStr "queued")]
  ∧ jobs (send_job E request w).2 !! uuid4 E (issued w)
    = Some (queued_record (time_time E (clock w)) request)
  ∧ (∀ job_id,
        job_id ≠ uuid4 E (issued w) →
        jobs (send_job E request w).2 !! job_id = jobs w !! job_id)
  ∧ background_tasks (send_job E request w).2
    = (background_tasks w ++ [(uuid4 E (issued w), request)])%list.
Proof.
  unfold send_job, send_job_body, bind, new_uuid, time, set_job, add_task, ret.
  cbn [fst snd jobs background_tasks clock issued].
  split; [done|]. split; [apply lookup_insert_eq|]. split; [|done].
  intros job_id Hne. by rewrite lookup_insert_ne.
Qed.

(** ** Status queries *)

(** In every state of the lifecycle the record has a state, a progress
    and a message; it has an [error] only when failed and a
    [model_base64] only when completed. *)
Lemma lifecycle_fields E rec :
  lifecycle E rec →
  ∃ st,
    rec !! "status" = Some (VStr st)
    ∧ is_Some (rec !! "progress")
    ∧ is_Some (rec !! "message")
    ∧ (is_Some (rec !! "error") → st = "failed")
    ∧ (is_Some (rec !! "model_base64") → st = "completed").
Proof.
  assert (Hnone : ∀ A, ¬ is_Some (@None A)) by (by intros A [? ?]).
  destruct 1 as [created_at request|created_at request job_id w rec Hrec Hin].
  - unfold queued_record. eexists. lookups.
    split; [reflexivity|]. do 2 (split; [by eexists|]).
    split; by intros ?%Hnone.
  - run_cases E w job_id request
      (queued_record created_at request) Hrec;
      rewrite Hrun in Hin; cbn [snd] in Hin; rewrite updates_logged in Hin;
      cbn [scan starting calling finishing failing app] in Hin;
      repeat (apply elem_of_cons in Hin as [-> | Hin]);
      try (by apply elem_of_nil in Hin);
      unfold queued_record; eexists; lookups;
      (split; [reflexivity|]); (do 2 (split; [by eexists|]));
      split; first [done | by intros ?%Hnone].
Qed.

(** C7.  A status query for an identifier that the table does not hold
    answers 404.  For an identifier whose record is in a state of the job
    lifecycle it returns the record's [status], [progress] and [message];
    [model_base64] is in the answer only when the state is completed and
    then is the record's; [error] is in the answer only when the state is
    failed and is the record's. *)
Theorem get_job_status_view E w job_id :
  (∀ job, jobs w !! job_id = Some job → lifecycle E job) →
  match jobs w !! job_id with
  | None =>
      get_job_status job_id w
      = HTTPException 404 ("Job with ID " +:+ job_id +:+ " not found")
  | Some job =>
      ∃ js,
        get_job_status job_id w = Returned js
        ∧ job !! "status" = Some (status js)
        ∧ job !! "progress" = Some (progress js)
        ∧ job !! "message" = Some (message js)
        ∧ (model_base64 js ≠ VNone →
           status js = VStr "completed"
           ∧ job !! "model_base64" = Some (model_base64 js))
        ∧ (status js = VStr "completed" →
           model_base64 js = dict_get job "model_base64")
        ∧ (error js ≠ VNone →
           status js = VStr "failed" ∧ job !! "error" = Some (error js))
        ∧ error js = dict_get job "error"
  end.
Proof.
  intros Hlife. unfold get_job_status.
  destruct (jobs w !! job_id) as [job|] eqn:Hjob; [|done].
  destruct (lifecycle_fields E job (Hlife job eq_refl))
    as (st & Hst & [p Hp] & [m Hm] & Herr & Hres).
  rewrite Hst. eexists. split; [reflexivity|].
  cbn [status progress message model_base64 error eq_str].
  unfold dict_get. rewrite Hp, Hm. cbn [default].
  do 3 (split; [done|]).
  split; [|split; [|split; [|done]]].
  - destruct (String.eqb_spec st "completed") as [->|Hne]; [|done].
    intros Hpresent. split; [done|].
    by destruct (job !! "model_base64").
  - intros [= ->]. by rewrite String.eqb_refl.
  - intros Hpresent. destruct (job !! "error") as [err|] eqn:Herror; [|done].
    split; [|done]. f_equal. f_equal. apply Herr. by eexists.
Qed.

Lemma get_job_status_view_witness :
  (∀ job,
      jobs (submitted env_ok req_ok) !! "job-0" = Some job →
      lifecycle env_ok job)
  ∧ match jobs (submitted env_ok req_ok) !! "job-0" with
    | None =>
        get_job_status "job-0" (submitted env_ok req_ok)
        = HTTPException 404 ("Job with ID " +:+ "job-0" +:+ " not found")
    | Some job =>
        ∃ js,
          get_job_status "job-0" (submitted env_ok req_ok) = Returned js
          ∧ job !! "status" = Some (status js)
          ∧ job !! "progress" = Some (progress js)
          ∧ job !! "message" = Some (message js)
          ∧ (model_base64 js ≠ VNone →
             status js = VStr "completed"
             ∧ job !! "model_base64" = Some (model_base64 js))
          ∧ (status js = VStr "completed" →
             model_base64 js = dict_get job "model_base64")
          ∧ (error js ≠ VNone →
             status js = VStr "failed" ∧ job !! "error" = Some (error js))
          ∧ error js = dict_get job "error"
    end.
Proof.
  assert (Hlife : ∀ job,
    jobs (submitted env_ok req_ok) !! "job-0" = Some job →
    lifecycle env_ok job).
  { intros job Hjob.
    change (jobs (submitted env_ok req_ok) !! "job-0")
      with (Some (queued_record (sample_clock 0) req_ok)) in Hjob.
    injection Hjob as <-. constructor. }
  split; [exact Hlife|].
  exact (get_job_status_view env_ok (submitted env_ok req_ok) "job-0" Hlife).
Defined.

(** The answers to queries on a fresh server, during the backend call,
    after a completed job and after a failed job. *)
Example get_job_status_unknown :
  get_job_status "job-7" empty_world
  = HTTPException 404 "Job with ID job-7 not found".
Proof. reflexivity. Qed.

Example get_job_status_during_call :
  (λ tbl, get_job_status "job-0" (World tbl [] [] [] [] 0 0 []))
    <$> seen (process_job env_ok "job-0" req_ok (submitted env_ok req_ok)).2
  = [Returned
       {| status := VStr "processing";
          progress := VInt 30;
          message := VStr "Calling Hunyuan3D API";
          model_base64 := VNone;
          error := VNone |}].
Proof. reflexivity. Qed.

Example get_job_status_completed :
  get_job_status "job-0"
    (process_job env_ok "job-0" req_ok (submitted env_ok req_ok)).2
  = Returned
      {| status := VStr "completed";
         progress := VInt 100;
         message := VStr "Model generation completed";
         model_base64 := VStr "AQI=";
         error := VNone |}.
Proof. reflexivity. Qed.

Example get_job_status_failed :
  get_job_status "job-0"
    (process_job env_backend_down "job-0" req_ok
       (submitted env_backend_down req_ok)).2
  = Returned
      {| status := VStr "failed";
         progress := VInt 0;
         message := VStr "Model generation failed";
         model_base64 := VNone;
         error :=
           VStr
             "Error processing job job-0: Error generating 3D model: 503 Service Unavailable" |}.
Proof. reflexivity. Qed.

(** ** The synchronous path *)

(** C9.  [generate_model] answers with the generated artifact as a binary
    response: when the image decodes and the credential is set, the
    content of the answer is what the backend returned for the one call
    built from the decoded image and the request, [call_for].  When the
    image does not decode, the credential is missing or the backend call
    raises, the answer is an [HTTPException].  Either way the job table is
    as before, no assignment into it was made, and no background task was
    scheduled; the backend is called at most once, and not at all without
    a decoded image and a credential. *)
Theorem generate_model_leaves_jobs E request w :
  jobs (generate_model E request w).2 = jobs w
  ∧ history (generate_model E request w).2 = history w
  ∧ background_tasks (generate_model E request w).2 = background_tasks w
  ∧ ((∃ model_data,
         (generate_model_body E request w).1 = Ok model_data
         ∧ (generate_model E request w).1
           = Returned {| content := model_data;
                         media_type := "application/octet-stream" |})
     ∨ (∃ e,
           (generate_model_body E request w).1 = Raise e
           ∧ (generate_model E request w).1 = HTTPException 500 (str e)))
  ∧ (generate_model E request w).1
    = match b64decode E (image request) with
      | Ok image_data =>
          if truthy (HUGGINGFACE_API_KEY E)
          then
            match
              client_post E (length (calls w)) (call_for image_data request)
            with
            | Ok model_data =>
                Returned {| content := model_data;
                            media_type := "application/octet-stream" |}
            | Raise e =>
                HTTPException 500 ("Error generating 3D model: " +:+ str e)
            end
          else HTTPException 500 "HUGGINGFACE_API_KEY is not set"
      | Raise e => HTTPException 500 (str e)
      end
  ∧ calls (generate_model E request w).2
    = match b64decode E (image request) with
      | Ok image_data =>
          if truthy (HUGGINGFACE_API_KEY E)
          then (calls w ++ [call_for image_data request])%list
          else calls w
      | Raise _ => calls w
      end
  ∧ invocations (generate_model E request w).2
    = match b64decode E (image request) with
      | Ok image_data =>
          (invocations w ++ [args_for image_data request])%list
      | Raise _ => invocations w
      end.
Proof.
  unfold generate_model, generate_model_body, bind, lift.
  destruct (b64decode E (image request)) as [image_data|e].
  - rewrite generate_3d_model_run.
    fold (call_for image_data request) (args_for image_data request).
    destruct (truthy (HUGGINGFACE_API_KEY E)).
    + destruct (client_post E (length (calls w))
                  (call_for image_data request)) as [model_data|e];
        cbn [fst snd jobs history background_tasks calls invocations].
      * do 3 (split; [done|]). split; [left; by exists model_data|done].
      * do 3 (split; [done|]). split; [right; by eexists|done].
    + cbn [fst snd jobs history background_tasks calls invocations].
      do 3 (split; [done|]). split; [right; by eexists|done].
  - cbn [fst snd]. do 3 (split; [done|]). split; [right; by exists e|done].
Qed.

(** C10.  Every failure of [generate_model] comes out as an
    [HTTPException] with status code 500 whose detail is the text of the
    exception: an image that does not decode, a missing credential and a
    failing backend call alike; the handler gives no other error
    answer. *)
Theorem generate_model_failures_alike E request w :
  (∀ e,
      b64decode E (image request) = Raise e →
      (generate_model E request w).1 = HTTPException 500 (str e))
  ∧ (∀ image_data,
        b64decode E (image request) = Ok image_data →
        truthy (HUGGINGFACE_API_KEY E) = false →
        (generate_model E request w).1
        = HTTPException 500 "HUGGINGFACE_API_KEY is not set")
  ∧ (∀ image_data e,
        b64decode E (image request) = Ok image_data →
        truthy (HUGGINGFACE_API_KEY E) = true →
        client_post E (length (calls w)) (call_for image_data request)
        = Raise e →
        (generate_model E request w).1
        = HTTPException 500 ("Error generating 3D model: " +:+ str e))
  ∧ (∀ e,
        (generate_model_body E request w).1 = Raise e →
        (generate_model E request w).1 = HTTPException 500 (str e))
  ∧ ((∃ response, (generate_model E request w).1 = Returned response)
     ∨ (∃ detail, (generate_model E request w).1 = HTTPException 500 detail)).
Proof.
  split; [|split; [|split; [|split]]].
  - intros e Hdec.
    unfold generate_model, generate_model_body, bind, lift.
    by rewrite Hdec.
  - intros image_data Hdec Hkey.
    unfold generate_model, generate_model_body, bind, lift.
    rewrite Hdec. cbv beta iota. by rewrite generate_3d_model_run, Hkey.
  - intros image_data e Hdec Hkey Hpost.
    unfold generate_model, generate_model_body, bind, lift.
    rewrite Hdec. cbv beta iota. rewrite generate_3d_model_run, Hkey.
    fold (call_for image_data request). by rewrite Hpost.
  - intros e. unfold generate_model.
    destruct (generate_model_body E request w) as [[model_data|e'] w'];
      [done|]. by intros [= <-].
  - unfold generate_model.
    destruct (generate_model_body E request w) as [[model_data|e'] w'];
      [left|right]; by eexists.
Qed.

(** The three kinds of failure, and a success, on sample requests. *)
Example generate_model_bad_image :
  (generate_model env_ok req_bad_image empty_world).1
  = HTTPException 500
      "Invalid base64-encoded string: number of data characters (1) cannot be 1 more than a multiple of 4".
Proof. reflexivity. Qed.

Example generate_model_no_key :
  (generate_model env_no_key req_ok empty_world).1
  = HTTPException 500 "HUGGINGFACE_API_KEY is not set".
Proof. reflexivity. Qed.

Example generate_model_backend_down :
  (generate_model env_backend_down req_ok empty_world).1
  = HTTPException 500 "Error generating 3D model: 503 Service Unavailable".
Proof. reflexivity. Qed.

Example generate_model_artifact :
  generate_model env_ok req_ok empty_world
  = (Returned {| content := [x01; x02];
                 media_type := "application/octet-stream" |},
     World ∅ [] [args_for ["M"; "a"; "n"]%byte req_ok]
       [call_for ["M"; "a"; "n"]%byte req_ok] [∅] 0 0 []).
Proof. reflexivity. Qed.

(** * Further properties *)

(** ** base64 round trip *)

Lemma b64_char_value (n : N) :
  (n < 64)%N →
  Ascii.eqb (b64_char n) "=" = false
  ∧ b64_value (b64_char n) = Some n
  ∧ (N_of_ascii (b64_char n) <? 128)%N = true.
Proof.
  intros Hn.
  assert (Hall : Forall
    (λ k, Ascii.eqb (b64_char k) "=" = false
          ∧ b64_value (b64_char k) = Some k
          ∧ (N_of_ascii (b64_char k) <? 128)%N = true)
    (N.of_nat <$> seq 0 64)).
  { cbn [seq fmap list_fmap]. repeat (constructor; [by vm_compute|]).
    constructor. }
  rewrite Forall_forall in Hall. apply Hall.
  apply list_elem_of_fmap. exists (N.to_nat n).
  split; [by rewrite N2Nat.id|]. apply elem_of_seq. lia.
Qed.

(** Linear arithmetic with division and remainder by constants. *)
Ltac divlia := zify; Z.to_euclidean_division_equations; lia.

Lemma byte_of_to_N (x : byte) : byte_of (Byte.to_N x) = x.
Proof.
  unfold byte_of. pose proof (Byte.to_N_bounded x).
  rewrite N.mod_small by lia. by rewrite Byte.of_to_N.
Qed.

Lemma list_ind3 {A} (P : list A → Prop) :
  P [] → (∀ a, P [a]) → (∀ a b, P [a; b]) →
  (∀ a b c rest, P rest → P (a :: b :: c :: rest)) →
  ∀ l, P l.
Proof.
  intros H0 H1 H2 H3 l.
  assert (P l ∧ (∀ a, P (a :: l)) ∧ (∀ a b, P (a :: b :: l))) as [? _].
  { induction l as [|x l (IH0 & IH1 & IH2)]; [done|].
    split; [apply IH1|]. split; [intros; apply IH2|].
    intros a b. by apply H3. }
  done.
Qed.

Lemma a2b_base64_quad (v1 v2 v3 v4 : N) s out :
  (v1 < 64)%N → (v2 < 64)%N → (v3 < 64)%N → (v4 < 64)%N →
  a2b_base64
    (String (b64_char v1)
       (String (b64_char v2) (String (b64_char v3) (String (b64_char v4) s))))
    0 0%N 0 out
  = a2b_base64 s 0 0%N 0
      (byte_of (v3 mod 4 * 64 + v4)
       :: byte_of (v2 mod 16 * 16 + v3 / 4)
       :: byte_of (v1 * 4 + v2 / 16) :: out).
Proof.
  intros (E1 & V1 & _)%b64_char_value (E2 & V2 & _)%b64_char_value
    (E3 & V3 & _)%b64_char_value (E4 & V4 & _)%b64_char_value.
  cbn [a2b_base64]. by rewrite E1, V1, E2, V2, E3, V3, E4, V4.
Qed.

Lemma a2b_base64_encode (s : bytes) out :
  a2b_base64 (b64encode s) 0 0%N 0 out = Ok (rev out ++ s)%list.
Proof.
  revert out. induction s as [|a|a b|a b c rest IH] using list_ind3;
    intros out.
  - cbn. by rewrite app_nil_r.
  - pose proof (Byte.to_N_bounded a).
    cbn [b64encode].
    destruct (b64_char_value (Byte.to_N a / 4)) as (E1 & V1 & _); [divlia|].
    destruct (b64_char_value (Byte.to_N a mod 4 * 16)) as (E2 & V2 & _);
      [divlia|].
    cbn [a2b_base64]. rewrite E1, V1, E2, V2. cbn.
    replace (Byte.to_N a / 4 * 4 + Byte.to_N a mod 4 * 16 / 16)%N
      with (Byte.to_N a) by divlia.
    by rewrite byte_of_to_N.
  - pose proof (Byte.to_N_bounded a). pose proof (Byte.to_N_bounded b).
    cbn [b64encode].
    destruct (b64_char_value (Byte.to_N a / 4)) as (E1 & V1 & _); [divlia|].
    destruct (b64_char_value (Byte.to_N a mod 4 * 16 + Byte.to_N b / 16))
      as (E2 & V2 & _); [divlia|].
    destruct (b64_char_value (Byte.to_N b mod 16 * 4)) as (E3 & V3 & _);
      [divlia|].
    cbn [a2b_base64]. rewrite E1, V1, E2, V2, E3, V3. cbn.
    replace (Byte.to_N a / 4 * 4
             + (Byte.to_N a mod 4 * 16 + Byte.to_N b / 16) / 16)%N
      with (Byte.to_N a) by divlia.
    replace ((Byte.to_N a mod 4 * 16 + Byte.to_N b / 16) mod 16 * 16
             + Byte.to_N b mod 16 * 4 / 4)%N
      with (Byte.to_N b) by divlia.
    rewrite !byte_of_to_N. by rewrite <- !app_assoc.
  - pose proof (Byte.to_N_bounded a). pose proof (Byte.to_N_bounded b).
    pose proof (Byte.to_N_bounded c).
    cbn [b64encode]. rewrite a2b_base64_quad by divlia. rewrite IH.
    replace (Byte.to_N a / 4 * 4
             + (Byte.to_N a mod 4 * 16 + Byte.to_N b / 16) / 16)%N
      with (Byte.to_N a) by divlia.
    replace ((Byte.to_N a mod 4 * 16 + Byte.to_N b / 16) mod 16 * 16
             + (Byte.to_N b mod 16 * 4 + Byte.to_N c / 64) / 4)%N
      with (Byte.to_N b) by divlia.
    replace ((Byte.to_N b mod 16 * 4 + Byte.to_N c / 64) mod 4 * 64
             + Byte.to_N c mod 64)%N
      with (Byte.to_N c) by divlia.
    rewrite !byte_of_to_N. cbn [rev]. by rewrite <- !app_assoc.
Qed.

Lemma b64encode_ascii (s : bytes) : is_ascii_string (b64encode s) = true.
Proof.
  induction s as [|a|a b|a b c rest IH] using list_ind3.
  - done.
  - pose proof (Byte.to_N_bounded a). cbn [b64encode is_ascii_string].
    destruct (b64_char_value (Byte.to_N a / 4)) as (_ & _ & ->); [divlia|].
    by destruct (b64_char_value (Byte.to_N a mod 4 * 16)) as (_ & _ & ->);
      [divlia|].
  - pose proof (Byte.to_N_bounded a). pose proof (Byte.to_N_bounded b).
    cbn [b64encode is_ascii_string].
    destruct (b64_char_value (Byte.to_N a / 4)) as (_ & _ & ->); [divlia|].
    destruct (b64_char_value (Byte.to_N a mod 4 * 16 + Byte.to_N b / 16))
      as (_ & _ & ->); [divlia|].
    by destruct (b64_char_value (Byte.to_N b mod 16 * 4)) as (_ & _ & ->);
      [divlia|].
  - pose proof (Byte.to_N_bounded a). pose proof (Byte.to_N_bounded b).
    pose proof (Byte.to_N_bounded c).
    cbn [b64encode is_ascii_string].
    destruct (b64_char_value (Byte.to_N a / 4)) as (_ & _ & ->); [divlia|].
    destruct (b64_char_value (Byte.to_N a mod 4 * 16 + Byte.to_N b / 16))
      as (_ & _ & ->); [divlia|].
    destruct (b64_char_value (Byte.to_N b mod 16 * 4 + Byte.to_N c / 64))
      as (_ & _ & ->); [divlia|].
    by destruct (b64_char_value (Byte.to_N c mod 64)) as (_ & _ & ->); [divlia|].
Qed.

Lemma b64decode_b64encode (s : bytes) : py_b64decode (b64encode s) = Ok s.
Proof.
  unfold py_b64decode. by rewrite b64encode_ascii, a2b_base64_encode.
Qed.

(** ** Known and unknown jobs *)

(** X1.  [process_job] returns normally exactly when the table holds the
    job.  On an unknown identifier it raises [KeyError] to its caller and
    leaves the whole state as it was: nothing is written, decoded or
    called. *)
Theorem process_job_returns_iff_known E w job_id request :
  ((process_job E job_id request w).1 = Ok () ↔ is_Some (jobs w !! job_id))
  ∧ (jobs w !! job_id = None →
     process_job E job_id request w = (Raise (KeyError job_id), w)).
Proof.
  split; [|apply process_job_unknown].
  destruct (jobs w !! job_id) as [rec|] eqn:Hrec.
  - split; [by eexists|]. intros _.
    by run_cases E w job_id request rec Hrec.
  - rewrite process_job_unknown by done. cbn [fst].
    split; [done|]. by intros [? ?].
Qed.

(** X2.  Jobs are never removed: [send_job] adds the identifier it drew
    and keeps all others, [process_job] leaves the set of identifiers as
    it is, and [generate_model] leaves the whole table as it is. *)
Theorem jobs_never_removed E request job_id w :
  dom (jobs (send_job E request w).2) = {[uuid4 E (issued w)]} ∪ dom (jobs w)
  ∧ dom (jobs (process_job E job_id request w).2) = dom (jobs w)
  ∧ jobs (generate_model E request w).2 = jobs w.
Proof.
  split; [|split].
  - unfold send_job, send_job_body, bind, new_uuid, time, set_job, add_task,
      ret.
    cbn [snd jobs]. apply dom_insert_L.
  - destruct (jobs w !! job_id) as [rec|] eqn:Hrec.
    + assert (Hin : job_id ∈ dom (jobs w)) by (apply elem_of_dom; eauto).
      run_cases E w job_id request rec Hrec;
        (erewrite jobs_logged by reflexivity); rewrite dom_insert_L;
        by apply subseteq_union_1_L, singleton_subseteq_l.
    + by rewrite process_job_unknown.
  - unfold generate_model, generate_model_body, bind, lift.
    destruct (b64decode E (image request)) as [image_data|e]; [|done].
    pose proof (generate_3d_model_frame E image_data (caption request)
      (seed request) (octree_resolution request)
      (num_inference_steps request) (guidance_scale request)
      (mc_algo request) (texture request) (type request) w) as (Hjobs & _).
    by destruct (generate_3d_model E image_data _ _ _ _ _ _ _ _ w) as [[?|?] ?].
Qed.

(** X3.  [process_job] never touches the input of a job: after every
    assignment of a run the record still has the [request] and the
    [created_at] it started with. *)
Theorem process_job_keeps_input E w job_id request rec :
  jobs w !! job_id = Some rec →
  Forall
    (λ r, r !! "request" = rec !! "request"
          ∧ r !! "created_at" = rec !! "created_at")
    (updates job_id w (process_job E job_id request w).2).
Proof.
  intros Hrec.
  run_cases E w job_id request rec Hrec; rewrite updates_logged;
    cbn [scan starting calling finishing failing app];
    repeat (constructor; [by lookups|]); constructor.
Qed.

Lemma process_job_keeps_input_witness :
  jobs (submitted env_ok req_ok) !! "job-0"
  = Some (queued_record (sample_clock 0) req_ok)
  ∧ Forall
      (λ r, r !! "request"
            = queued_record (sample_clock 0) req_ok !! "request"
            ∧ r !! "created_at"
              = queued_record (sample_clock 0) req_ok !! "created_at")
      (updates "job-0" (submitted env_ok req_ok)
         (process_job env_ok "job-0" req_ok (submitted env_ok req_ok)).2).
Proof.
  split; [reflexivity|]. apply process_job_keeps_input. reflexivity.
Defined.

(** ** Suspension and what a poller can see *)

(** X4.  A run of [process_job] on a known job is suspended exactly when
    the image decodes and the credential is configured, and then once, for
    its one backend call.  Otherwise it makes no backend call and runs
    from queued to failed without any other task seeing the job in
    between; without a decodable image the generator client is not called
    at all. *)
Theorem process_job_suspends_iff E w job_id request rec :
  jobs w !! job_id = Some rec →
  let w' := (process_job E job_id request w).2 in
  match b64decode E (image request) with
  | Ok image_data =>
      invocations w' = (invocations w ++ [args_for image_data request])%list
      ∧ if truthy (HUGGINGFACE_API_KEY E)
        then
          calls w' = (calls w ++ [call_for image_data request])%list
          ∧ length (observed job_id w w') = 1%nat
        else calls w' = calls w ∧ observed job_id w w' = []
  | Raise _ =>
      invocations w' = invocations w
      ∧ calls w' = calls w
      ∧ observed job_id w w' = []
  end.
Proof.
  intros Hrec w'. subst w'.
  run_cases E w job_id request rec Hrec; rewrite Hdec, ?Hkey;
    rewrite ?observed_logged, ?observed_logged_none; by unfold logged.
Qed.

Lemma process_job_suspends_iff_witness :
  jobs (submitted env_ok req_ok) !! "job-0"
  = Some (queued_record (sample_clock 0) req_ok)
  ∧ let w' :=
      (process_job env_ok "job-0" req_ok (submitted env_ok req_ok)).2 in
    match b64decode env_ok (image req_ok) with
    | Ok image_data =>
        invocations w'
        = (invocations (submitted env_ok req_ok)
           ++ [args_for image_data req_ok])%list
        ∧ if truthy (HUGGINGFACE_API_KEY env_ok)
          then
            calls w'
            = (calls (submitted env_ok req_ok)
               ++ [call_for image_data req_ok])%list
            ∧ length (observed "job-0" (submitted env_ok req_ok) w') = 1%nat
          else
            calls w' = calls (submitted env_ok req_ok)
            ∧ observed "job-0" (submitted env_ok req_ok) w' = []
    | Raise _ =>
        invocations w' = invocations (submitted env_ok req_ok)
        ∧ calls w' = calls (submitted env_ok req_ok)
        ∧ observed "job-0" (submitted env_ok req_ok) w' = []
    end.
Proof.
  split; [reflexivity|].
  apply (process_job_suspends_iff env_ok (submitted env_ok req_ok) "job-0"
           req_ok (queued_record (sample_clock 0) req_ok)).
  reflexivity.
Defined.

(** X5.  Whenever another task can query a job during its run, the answer
    is the state processing with progress 30 and the message "Calling
    Hunyuan3D API", without result; the progress values 10 and 80 are
    never visible to a poller. *)
Theorem get_job_status_during_run E w job_id request rec :
  jobs w !! job_id = Some rec →
  Forall
    (λ t, get_job_status job_id (with_jobs t)
          = Returned
              {| status := VStr "processing";
                 progress := VInt 30;
                 message := VStr "Calling Hunyuan3D API";
                 model_base64 := VNone;
                 error := dict_get rec "error" |})
    (drop (length (seen w)) (seen (process_job E job_id request w).2)).
Proof.
  intros Hrec.
  assert (Hview : get_job_status job_id
      (with_jobs (<[job_id := after rec (starting ++ calling)]> (jobs w)))
    = Returned
        {| status := VStr "processing";
           progress := VInt 30;
           message := VStr "Calling Hunyuan3D API";
           model_base64 := VNone;
           error := dict_get rec "error" |}).
  { unfold get_job_status, with_jobs. cbn [jobs].
    rewrite lookup_insert_eq.
    unfold after, dict_get. cbn [foldl starting calling app fst snd].
    by lookups. }
  run_cases E w job_id request rec Hrec; unfold logged; cbn [seen];
    rewrite ?drop_all, ?drop_app_length; repeat constructor; done.
Qed.

Lemma get_job_status_during_run_witness :
  jobs (submitted env_ok req_ok) !! "job-0"
  = Some (queued_record (sample_clock 0) req_ok)
  ∧ Forall
      (λ t, get_job_status "job-0" (with_jobs t)
            = Returned
                {| status := VStr "processing";
                   progress := VInt 30;
                   message := VStr "Calling Hunyuan3D API";
                   model_base64 := VNone;
                   error :=
                     dict_get (queued_record (sample_clock 0) req_ok)
                       "error" |})
      (drop (length (seen (submitted env_ok req_ok)))
         (seen
            (process_job env_ok "job-0" req_ok (submitted env_ok req_ok)).2)).
Proof.
  split; [reflexivity|]. apply get_job_status_during_run. reflexivity.
Defined.

(** X6.  Submit, then query: right after [send_job] a status query for the
    identifier it returned answers queued with progress 0 and the message
    "Job queued for processing", without result or error, whatever the
    table held before. *)
Theorem get_job_status_after_send E request w :
  ∃ job_id,
    (send_job E request w).1
    = Returned [("uid", VStr job_id); ("status", VStr "queued")]
    ∧ get_job_status job_id (send_job E request w).2
      = Returned
          {| status := VStr "queued";
             progress := VInt 0;
             message := VStr "Job queued for processing";
             model_base64 := VNone;
             error := VNone |}.
Proof.
  exists (uuid4 E (issued w)).
  unfold send_job, send_job_body, bind, new_uuid, time, set_job, add_task, ret.
  cbn [fst snd]. split; [done|].
  unfold get_job_status. cbn [jobs]. rewrite lookup_insert_eq.
  unfold queued_record, dict_get. by lookups.
Qed.

(** ** Credential, health probe and backend parameters *)

(** X7.  The health probe reports [api_key_configured] as the truth value
    of the credential that the module-level client holds, and that flag
    tells what [/generate] does with a decodable image: when it is true
    the backend is called once, when it is false the answer is the 500
    "HUGGINGFACE_API_KEY is not set" and the backend is not called.  The
    probe itself answers ok either way, and [test_health] passes on it. *)
Theorem health_check_tells_generate E request w image_data :
  b64decode E (image request) = Ok image_data →
  api_key (hunyuan3d_client E) = HUGGINGFACE_API_KEY E
  ∧ health_check E
    = [("status", VStr "ok");
       ("api_key_configured",
        VBool (truthy (api_key (hunyuan3d_client E))))]
  ∧ test_health (respond_json (Returned (health_check E))) = true
  ∧ if truthy (api_key (hunyuan3d_client E))
    then
      calls (generate_model E request w).2
      = (calls w ++ [call_for image_data request])%list
    else
      (generate_model E request w).1
      = HTTPException 500 "HUGGINGFACE_API_KEY is not set"
      ∧ calls (generate_model E request w).2 = calls w.
Proof.
  intros Hdec. split; [done|]. split; [done|]. split; [done|].
  unfold hunyuan3d_client, Hunyuan3DClient_init, py_or.
  cbn [api_key truthy].
  unfold generate_model, generate_model_body, bind, lift.
  rewrite Hdec. cbv beta iota. rewrite generate_3d_model_run.
  fold (call_for image_data request).
  destruct (truthy (HUGGINGFACE_API_KEY E)); [|done].
  by destruct (client_post E _ _).
Qed.

Lemma health_check_tells_generate_witness :
  b64decode env_no_key (image req_ok) = Ok ["M"; "a"; "n"]%byte
  ∧ api_key (hunyuan3d_client env_no_key) = HUGGINGFACE_API_KEY env_no_key
  ∧ health_check env_no_key
    = [("status", VStr "ok");
       ("api_key_configured",
        VBool (truthy (api_key (hunyuan3d_client env_no_key))))]
  ∧ test_health (respond_json (Returned (health_check env_no_key))) = true
  ∧ if truthy (api_key (hunyuan3d_client env_no_key))
    then
      calls (generate_model env_no_key req_ok empty_world).2
      = (calls empty_world ++ [call_for ["M"; "a"; "n"]%byte req_ok])%list
    else
      (generate_model env_no_key req_ok empty_world).1
      = HTTPException 500 "HUGGINGFACE_API_KEY is not set"
      ∧ calls (generate_model env_no_key req_ok empty_world).2
        = calls empty_world.
Proof.
  split; [reflexivity|].
  apply (health_check_tells_generate env_no_key req_ok empty_world).
  reflexivity.
Defined.

(** A client built with an explicit key uses it when it is non-empty
    and falls back to the environment's key otherwise, also for the empty
    string; the endpoint falls back to the Hunyuan3D-2 endpoint in the
    same way. *)
Lemma Hunyuan3DClient_init_fallback E key endpoint :
  api_key (Hunyuan3DClient_init E key endpoint)
  = match key with
    | Some k => if String.eqb k "" then HUGGINGFACE_API_KEY E else Some k
    | None => HUGGINGFACE_API_KEY E
    end
  ∧ model_endpoint (Hunyuan3DClient_init E key endpoint)
    = match endpoint with
      | Some m =>
          if String.eqb m "" then Some HUNYUAN3D_MODEL_ENDPOINT else Some m
      | None => Some HUNYUAN3D_MODEL_ENDPOINT
      end
  ∧ (truthy (api_key (Hunyuan3DClient_init E key endpoint))
     = truthy key || truthy (HUGGINGFACE_API_KEY E)).
Proof.
  unfold Hunyuan3DClient_init, py_or. cbn [api_key model_endpoint].
  split; [|split].
  - destruct key as [k|]; cbn [truthy]; [|done].
    by destruct (String.eqb k "").
  - destruct endpoint as [m|]; cbn [truthy]; [|done].
    by destruct (String.eqb m "").
  - destruct key as [k|]; cbn [truthy]; [|done].
    destruct (String.eqb k "") eqn:Hk; cbn [negb orb truthy]; [done|].
    by rewrite Hk.
Qed.

(** X8.  The parameter dictionary sent to the backend has the keys
    [caption], [steps], [guidance_scale], [octree_resolution],
    [check_box_rembg], [num_chunks] and [randomize_seed], and [seed]
    exactly when the request gives one (zero included); background removal
    is always on, [num_chunks] is always 4000, and [randomize_seed] is true
    exactly when there is no [seed] key. *)
Theorem parameters_keys cap sd oct steps scale :
  dom (parameters cap sd oct steps scale)
  = ({["caption"; "steps"; "guidance_scale"; "octree_resolution";
       "check_box_rembg"; "num_chunks"; "randomize_seed"]}
     ∪ match sd with Some _ => {["seed"]} | None => ∅ end : gset string)
  ∧ parameters cap sd oct steps scale !! "check_box_rembg"
    = Some (VBool true)
  ∧ parameters cap sd oct steps scale !! "num_chunks" = Some (VInt 4000)
  ∧ (parameters cap sd oct steps scale !! "randomize_seed"
     = Some (VBool true)
     ↔ parameters cap sd oct steps scale !! "seed" = None)
  ∧ parameters cap sd oct steps scale !! "seed" = VInt <$> sd.
Proof.
  unfold parameters. destruct sd as [s|]; cbn [fmap option_fmap option_map].
  - split; [rewrite !dom_insert_L, dom_empty_L; set_solver|].
    lookups. do 2 (split; [done|]). split; [|done]. by split.
  - split; [rewrite !dom_insert_L, dom_empty_L; set_solver|].
    by lookups.
Qed.

(** X9.  The backend call that the server builds for a request without
    seed, with 20 steps, guidance scale 5.0, octree resolution 128 and
    output type glb (the values of both test scripts) is the call that
    [test_huggingface_api] makes for the same image bytes and caption. *)
Theorem call_for_matches_direct_test image_data request cap :
  caption request = Some cap →
  seed request = None →
  octree_resolution request = Some 128 →
  num_inference_steps request = Some 20 →
  guidance_scale request = Some 5%float →
  type request = Some "glb" →
  call_for image_data request
  = PostCall image_data (direct_parameters cap) (VStr "glb") true.
Proof.
  intros Hcap Hseed Hoct Hsteps Hscale Htype. unfold call_for.
  by rewrite Hcap, Hseed, Hoct, Hsteps, Hscale, Htype.
Qed.

Lemma call_for_matches_direct_test_witness :
  caption req_ok = Some ""
  ∧ seed req_ok = None
  ∧ octree_resolution req_ok = Some 128
  ∧ num_inference_steps req_ok = Some 20
  ∧ guidance_scale req_ok = Some 5%float
  ∧ type req_ok = Some "glb"
  ∧ call_for ["M"; "a"; "n"]%byte req_ok
    = PostCall ["M"; "a"; "n"]%byte (direct_parameters "") (VStr "glb") true.
Proof.
  do 6 (split; [reflexivity|]).
  by apply call_for_matches_direct_test.
Defined.

(** ** The stored result decodes to the artifact *)

(** X10.  When the image decodes and the generator client returns
    [model_data], the [model_base64] that [process_job] stores is a text
    that [base64.b64decode] turns back into [model_data]: the client's
    way of reading the result recovers the artifact byte for byte. *)
Theorem process_job_result_decodes E w job_id request rec image_data
    model_data :
  jobs w !! job_id = Some rec →
  b64decode E (image request) = Ok image_data →
  (generate_3d_model E image_data (caption request) (seed request)
     (octree_resolution request) (num_inference_steps request)
     (guidance_scale request) (mc_algo request) (texture request)
     (type request) w).1 = Ok model_data →
  ∃ text,
    jobs (process_job E job_id request w).2 !! job_id
    ≫= (.!! "model_base64") = Some (VStr text)
    ∧ py_b64decode text = Ok model_data.
Proof.
  intros Hrec Hdecode Hgen. rewrite generate_3d_model_result in Hgen.
  exists (b64encode model_data). split; [|apply b64decode_b64encode].
  run_cases E w job_id request rec Hrec;
    rewrite Hdecode in Hdec; try done; injection Hdec as <-;
    rewrite Hkey in Hgen; try done; rewrite Hpost in Hgen; try done.
  injection Hgen as <-.
  erewrite jobs_logged by reflexivity. rewrite lookup_insert_eq.
  cbn [mbind option_bind]. by lookups.
Qed.

Lemma process_job_result_decodes_witness :
  jobs (submitted env_ok req_ok) !! "job-0"
  = Some (queued_record (sample_clock 0) req_ok)
  ∧ b64decode env_ok (image req_ok) = Ok ["M"; "a"; "n"]%byte
  ∧ (generate_3d_model env_ok ["M"; "a"; "n"]%byte (caption req_ok)
       (seed req_ok) (octree_resolution req_ok) (num_inference_steps req_ok)
       (guidance_scale req_ok) (mc_algo req_ok) (texture req_ok)
       (type req_ok) (submitted env_ok req_ok)).1 = Ok [x01; x02]
  ∧ ∃ text,
      jobs (process_job env_ok "job-0" req_ok (submitted env_ok req_ok)).2
      !! "job-0" ≫= (.!! "model_base64") = Some (VStr text)
      ∧ py_b64decode text = Ok [x01; x02].
Proof.
  do 3 (split; [reflexivity|]).
  eapply process_job_result_decodes; reflexivity.
Defined.

(** ** The polling client *)

Lemma examine_in_progress decode r :
  in_progress r → examine decode r = Pending.
Proof.
  unfold examine. intros [Hok | (d & st & Hjson & Hst & Hc & Hf)].
  - by rewrite Hok.
  - destruct (reply_ok (reply_code r)); [|done]. cbn [negb].
    rewrite Hjson, Hst. cbn [eq_str].
    destruct (String.eqb_spec st "completed") as [?|_]; [done|].
    by destruct (String.eqb_spec st "failed").
Qed.

(** A stretch of [d] rounds that all poll again costs [d] requests and
    [5 * d] seconds. *)
Lemma poll_pending_prefix decode status d attempts fuel :
  (∀ i, (i < d)%nat → examine decode (status (attempts + i)%nat) = Pending) →
  poll decode status attempts (d + fuel)
  = RunResult (passed (poll decode status (attempts + d) fuel))
      (saved (poll decode status (attempts + d) fuel))
      (polls (poll decode status (attempts + d) fuel))
      (5 * d + slept (poll decode status (attempts + d) fuel)).
Proof.
  revert attempts. induction d as [|d IH]; intros attempts Hpending.
  - rewrite Nat.add_0_r. cbn. by destruct (poll decode status attempts fuel).
  - cbn [Nat.add poll]. specialize (Hpending 0%nat) as H0.
    rewrite Nat.add_0_r in H0. rewrite H0 by lia.
    rewrite IH.
    + replace (S attempts + d)%nat with (attempts + S d)%nat by lia.
      cbn [passed saved polls slept]. f_equal. lia.
    + intros i Hi. replace (S attempts + i)%nat with (attempts + S i)%nat
        by lia. apply Hpending. lia.
Qed.

Lemma poll_first_finished decode status d result file :
  (d < 60)%nat →
  (∀ i, (i < d)%nat → examine decode (status i) = Pending) →
  examine decode (status d) = Finished result file →
  poll decode status 0 60 = RunResult result file (S d) (5 * d).
Proof.
  intros Hd Hpending Hfinished.
  replace 60%nat with (d + S (59 - d))%nat by lia.
  rewrite poll_pending_prefix by done.
  cbn [Nat.add poll]. rewrite Hfinished. cbn [passed saved polls slept].
  f_equal. lia.
Qed.

Lemma poll_bounds decode status attempts fuel :
  (attempts ≤ polls (poll decode status attempts fuel) ≤ attempts + fuel)%nat
  ∧ (slept (poll decode status attempts fuel) ≤ 5 * fuel)%nat
  ∧ (passed (poll decode status attempts fuel) = true →
     (attempts < polls (poll decode status attempts fuel))%nat
     ∧ ∃ model, saved (poll decode status attempts fuel) = Some model).
Proof.
  revert attempts. induction fuel as [|fuel IH]; intros attempts.
  - cbn. split; [lia|]. split; [lia|]. done.
  - cbn [poll].
    destruct (examine decode (status attempts)) as [result file|] eqn:Hex.
    + cbn [passed saved polls slept]. split; [lia|]. split; [lia|].
      intros ->. split; [lia|].
      unfold examine in Hex.
      repeat match type of Hex with
             | context [match ?x with _ => _ end] => destruct x
             end; try done; injection Hex as <-; by eexists.
    + cbn [passed saved polls slept].
      destruct (IH (S attempts)) as (Hp & Hs & Hok).
      split; [lia|]. split; [lia|].
      intros Hpass. destruct (Hok Hpass) as [? ?]. split; [lia|done].
Qed.

(** X11.  Whatever the server answers, [test_async_api] makes at most 60
    status requests and sleeps at most 300 seconds (the five minutes of
    the source's comment), and it returns [True] only after at least one
    request and with a decoded model written to the output file. *)
Theorem test_async_api_bounded decode send status base64_image caption :
  (polls (test_async_api decode send status base64_image caption) ≤ 60)%nat
  ∧ (slept (test_async_api decode send status base64_image caption)
     ≤ 300)%nat
  ∧ (passed (test_async_api decode send status base64_image caption) = true →
     (1 ≤ polls (test_async_api decode send status base64_image caption))%nat
     ∧ ∃ model,
         saved (test_async_api decode send status base64_image caption)
         = Some model).
Proof.
  unfold test_async_api.
  repeat match goal with
         | |- context [match ?x with _ => _ end] =>
             lazymatch x with
             | poll _ _ _ _ => fail
             | _ => destruct x
             end
         end;
    try (cbn [passed saved polls slept]; split; [lia|]; split; [lia|]; done).
  pose proof (poll_bounds decode (status p) 0 60) as (Hp & Hs & Hok).
  split; [lia|]. split; [lia|]. intros Hpass.
  destruct (Hok Hpass) as [? ?]. split; [lia|done].
Qed.

(** X12.  As long as every answer is one after which the loop polls
    again, the test goes through all 60 rounds: it ends with [False]
    after exactly 60 requests and 300 seconds, without opening the output
    file. *)
Theorem poll_times_out decode status :
  (∀ i, (i < 60)%nat → in_progress (status i)) →
  poll decode status 0 60 = RunResult false None 60 300.
Proof.
  intros Hprogress.
  change 60%nat with (60 + 0)%nat at 1.
  rewrite poll_pending_prefix.
  - reflexivity.
  - intros i Hi. by apply examine_in_progress, Hprogress.
Qed.

Lemma poll_times_out_witness :
  (∀ i, (i < 60)%nat →
        in_progress
          (respond_status (get_job_status "job-0" (submitted env_ok req_ok))))
  ∧ poll py_b64decode
      (λ _, respond_status (get_job_status "job-0" (submitted env_ok req_ok)))
      0 60
    = RunResult false None 60 300.
Proof.
  assert (H : ∀ i, (i < 60)%nat →
    in_progress
      (respond_status (get_job_status "job-0" (submitted env_ok req_ok)))).
  { intros i _. right. eexists _, "queued".
    split; [reflexivity|]. split; [reflexivity|]. by split. }
  split; [exact H|].
  exact (poll_times_out py_b64decode
           (λ _, respond_status
                   (get_job_status "job-0" (submitted env_ok req_ok))) H).
Defined.

(** X13.  A status query for an identifier the server does not know
    answers 404, which the polling loop skips like a job in progress: a
    client that polls such an identifier gives up only after 60 requests
    and 300 seconds. *)
Theorem poll_unknown_job decode w job_id :
  jobs w !! job_id = None →
  reply_code (respond_status (get_job_status job_id w)) = 404
  ∧ poll decode (λ _, respond_status (get_job_status job_id w)) 0 60
    = RunResult false None 60 300.
Proof.
  intros Hnone.
  assert (Hreply : respond_status (get_job_status job_id w)
    = JsonReply 404
        (Some (<["detail" := VStr ("Job with ID " +:+ job_id +:+ " not found")]>
                 ∅))).
  { unfold get_job_status. by rewrite Hnone. }
  rewrite Hreply. split; [done|].
  change 60%nat with (60 + 0)%nat at 1.
  rewrite poll_pending_prefix; [reflexivity|].
  intros i _. apply examine_in_progress. by left.
Qed.

Lemma poll_unknown_job_witness :
  jobs empty_world !! "job-7" = None
  ∧ reply_code (respond_status (get_job_status "job-7" empty_world)) = 404
  ∧ poll py_b64decode
      (λ _, respond_status (get_job_status "job-7" empty_world)) 0 60
    = RunResult false None 60 300.
Proof.
  split; [reflexivity|]. by apply poll_unknown_job.
Defined.

(** ** Runs of different jobs *)

(** The tables seen at the suspensions of a run hold the job at its
    fifth assignment and every other entry as it was. *)
Lemma seen_during_run E w job_id request rec t :
  jobs w !! job_id = Some rec →
  t ∈ drop (length (seen w)) (seen (process_job E job_id request w).2) →
  t = <[job_id := after rec (starting ++ calling)]> (jobs w).
Proof.
  intros Hrec.
  run_cases E w job_id request rec Hrec; unfold logged; cbn [seen];
    rewrite ?drop_all, ?drop_app_length; intros Hin;
    first [by apply elem_of_nil in Hin
          | by apply list_elem_of_singleton in Hin].
Qed.

(** X14.  A run of [process_job] is confined to its own job: it makes no
    assignment to another job's record, at every point where other tasks
    can look the other records are as they were, and so they are when the
    run has ended.  One job's result or error never shows up under
    another identifier. *)
Theorem process_job_isolated E w job_id request other :
  other ≠ job_id →
  updates other w (process_job E job_id request w).2 = []
  ∧ Forall (λ t, t !! other = jobs w !! other)
      (drop (length (seen w)) (seen (process_job E job_id request w).2))
  ∧ get_job_status other (process_job E job_id request w).2
    = get_job_status other w.
Proof.
  intros Hne. split; [|split].
  - destruct (jobs w !! job_id) as [rec|] eqn:Hrec.
    + assert (Hnone : ∀ recs : list dict,
        filter (λ p : string * dict, p.1 = other) (pair job_id <$> recs)
        = []).
      { induction recs as [|r recs IH]; [done|].
        cbn [fmap list_fmap]. by rewrite filter_cons_False by (cbn; congruence). }
      run_cases E w job_id request rec Hrec; unfold updates, logged;
        cbn [history]; by rewrite drop_app_length, Hnone.
    + rewrite process_job_unknown by done. unfold updates. cbn [snd].
      by rewrite drop_all.
  - destruct (jobs w !! job_id) as [rec|] eqn:Hrec.
    + apply Forall_forall. intros t Hin.
      rewrite (seen_during_run E w job_id request rec t Hrec Hin).
      by rewrite lookup_insert_ne.
    + rewrite process_job_unknown by done. cbn [snd]. by rewrite drop_all.
  - unfold get_job_status. by rewrite process_job_other_jobs.
Qed.

Lemma process_job_isolated_witness :
  "job-1" ≠ "job-0"
  ∧ updates "job-1" (submitted env_ok req_ok)
      (process_job env_ok "job-0" req_ok (submitted env_ok req_ok)).2 = []
  ∧ Forall
      (λ t, t !! "job-1" = jobs (submitted env_ok req_ok) !! "job-1")
      (drop (length (seen (submitted env_ok req_ok)))
         (seen
            (process_job env_ok "job-0" req_ok (submitted env_ok req_ok)).2))
  ∧ get_job_status "job-1"
      (process_job env_ok "job-0" req_ok (submitted env_ok req_ok)).2
    = get_job_status "job-1" (submitted env_ok req_ok).
Proof.
  split; [done|]. by apply process_job_isolated.
Defined.

(** ** The test client against the handlers *)

Lemma after_send_spec E request w :
  (send_job E request w).1
  = Returned [("uid", VStr (uuid4 E (issued w))); ("status", VStr "queued")]
  ∧ jobs (after_send E request w) !! uuid4 E (issued w)
    = Some (queued_record (time_time E (clock w)) request)
  ∧ seen (after_send E request w) = seen w
  ∧ calls (after_send E request w) = calls w.
Proof.
  unfold after_send, send_job, send_job_body, bind, new_uuid, time, set_job,
    add_task, ret.
  cbn [fst snd jobs seen calls]. by rewrite lookup_insert_eq.
Qed.

Lemma examine_queued E request w decode :
  examine decode
    (respond_status
       (get_job_status (uuid4 E (issued w)) (after_send E request w)))
  = Pending.
Proof.
  destruct (after_send_spec E request w) as (_ & Hrec & _).
  unfold get_job_status. rewrite Hrec.
  unfold queued_record, dict_get. by lookups.
Qed.

Lemma examine_in_flight E request w decode r :
  in_flight E request w r → examine decode r = Pending.
Proof.
  intros [-> | (t & Hin & ->)]; [apply examine_queued|].
  destruct (after_send_spec E request w) as (_ & Hrec & _).
  unfold after_run in Hin.
  rewrite (seen_during_run E _ _ request _ t Hrec Hin).
  unfold get_job_status, with_jobs. cbn [jobs]. rewrite lookup_insert_eq.
  unfold after, dict_get, queued_record.
  cbn [foldl starting calling app fst snd]. by lookups.
Qed.

(** The client's run when its [d] first status requests are answered
    before the job's run has ended and the next one gets [final]. *)
Lemma test_async_api_run E request w decode send status img cap d result
    file :
  img ≠ "" →
  send (request_data img cap) = respond_json (send_job E request w).1 →
  (d < 60)%nat →
  (∀ i, (i < d)%nat →
        in_flight E request w (status (VStr (uuid4 E (issued w))) i)) →
  examine decode (status (VStr (uuid4 E (issued w))) d)
  = Finished result file →
  test_async_api decode send status (Some img) cap
  = RunResult result file (S d) (5 * d).
Proof.
  intros Himg Hsend Hd Hflight Hfinal.
  unfold test_async_api. cbn [truthy].
  destruct (String.eqb_spec img "") as [?|_]; [done|]. cbn [negb].
  rewrite Hsend.
  destruct (after_send_spec E request w) as (-> & _).
  cbn [respond_json reply_code reply_json list_to_map foldr uncurry fst snd].
  change (negb (reply_ok 200)) with false. cbv iota.
  rewrite lookup_insert_eq.
  apply poll_first_finished; [done| |done].
  intros i Hi. by eapply examine_in_flight, Hflight.
Qed.

(** X15.  Submit, run, poll: the test client posts its request to
    [send_job], the job's run decodes the image and the generator client
    returns a non-empty [model_data], the client's first [d] status
    requests are answered while the job is queued or suspended and the
    next one after the run.  Then [test_async_api] returns [True] after
    [d + 1] requests and [5 * d] seconds of sleep, and the file it wrote
    holds [model_data] byte for byte. *)
Theorem test_async_api_saves_artifact E request w send answer base64_image cap d
    image_data model_data :
  base64_image ≠ "" →
  send (request_data base64_image cap) = respond_json (send_job E request w).1 →
  b64decode E (image request) = Ok image_data →
  (generate_3d_model E image_data (caption request) (seed request)
     (octree_resolution request) (num_inference_steps request)
     (guidance_scale request) (mc_algo request) (texture request)
     (type request) (after_send E request w)).1 = Ok model_data →
  model_data ≠ [] →
  (d < 60)%nat →
  (∀ i, (i < d)%nat →
        in_flight E request w (answer (VStr (uuid4 E (issued w))) i)) →
  answer (VStr (uuid4 E (issued w))) d
  = respond_status
      (get_job_status (uuid4 E (issued w)) (after_run E request w)) →
  test_async_api py_b64decode send answer (Some base64_image) cap
  = RunResult true (Some model_data) (S d) (5 * d).
Proof.
  intros Himage Hsend Hdecode Hgen Hdata Hd Hflight Hfinal.
  eapply test_async_api_run; [done..|].
  rewrite Hfinal. unfold after_run.
  destruct (after_send_spec E request w) as (_ & Hrec & _).
  rewrite generate_3d_model_result in Hgen.
  run_cases E (after_send E request w) (uuid4 E (issued w)) request
    (queued_record (time_time E (clock w)) request) Hrec;
    rewrite Hdecode in Hdec; try done; injection Hdec as <-;
    rewrite Hkey in Hgen; try done; rewrite Hpost in Hgen; try done.
  injection Hgen as <-.
  unfold get_job_status. erewrite jobs_logged by reflexivity.
  rewrite lookup_insert_eq. unfold dict_get. lookups.
  cbn [eq_str String.eqb Ascii.eqb Bool.eqb respond_status].
  unfold examine, JobStatus_json, dict_get.
  cbn [reply_code reply_json status progress message model_base64 error].
  change (negb (reply_ok 200)) with false. cbv iota.
  lookups.
  cbn [eq_str String.eqb Ascii.eqb Bool.eqb py_truthy from_option id].
  destruct (String.eqb_spec (b64encode data) "") as [Hempty|_];
    [by apply b64encode_nonempty in Hempty|].
  cbn [negb]. by rewrite b64decode_b64encode.
Qed.

Lemma sample_answers_in_flight E request :
  seen (after_run E request empty_world) ≠ [] →
  ∀ i, (i < 2)%nat →
       in_flight E request empty_world
         (sample_answers E request (VStr (uuid4 E (issued empty_world))) i).
Proof.
  intros Hseen [|[|i]] Hi; [by left| |lia].
  right. eexists. split; [|reflexivity].
  destruct (after_send_spec E request empty_world) as (_ & _ & -> & _).
  cbn [seen empty_world length drop].
  destruct (seen (after_run E request empty_world)) as [|t l] eqn:Hl using rev_ind;
    [done|].
  rewrite last_snoc. cbn [default from_option id]. set_solver.
Qed.

Lemma test_async_api_saves_artifact_witness :
  "TWFu" ≠ ""
  ∧ sample_send env_ok req_ok (request_data "TWFu" "")
    = respond_json (send_job env_ok req_ok empty_world).1
  ∧ b64decode env_ok (image req_ok) = Ok ["M"; "a"; "n"]%byte
  ∧ (generate_3d_model env_ok ["M"; "a"; "n"]%byte (caption req_ok)
       (seed req_ok) (octree_resolution req_ok) (num_inference_steps req_ok)
       (guidance_scale req_ok) (mc_algo req_ok) (texture req_ok)
       (type req_ok) (after_send env_ok req_ok empty_world)).1
    = Ok [x01; x02]
  ∧ [x01; x02] ≠ []
  ∧ (2 < 60)%nat
  ∧ (∀ i, (i < 2)%nat →
          in_flight env_ok req_ok empty_world
            (sample_answers env_ok req_ok
               (VStr (uuid4 env_ok (issued empty_world))) i))
  ∧ sample_answers env_ok req_ok (VStr (uuid4 env_ok (issued empty_world))) 2
    = respond_status
        (get_job_status (uuid4 env_ok (issued empty_world))
           (after_run env_ok req_ok empty_world))
  ∧ test_async_api py_b64decode (sample_send env_ok req_ok)
      (sample_answers env_ok req_ok) (Some "TWFu") ""
    = RunResult true (Some [x01; x02]) 3 10.
Proof.
  assert (Hflight : ∀ i, (i < 2)%nat →
    in_flight env_ok req_ok empty_world
      (sample_answers env_ok req_ok
         (VStr (uuid4 env_ok (issued empty_world))) i)).
  { apply sample_answers_in_flight. intros Hseen.
    apply (f_equal length) in Hseen. vm_compute in Hseen. discriminate. }
  split; [done|]. do 3 (split; [reflexivity|]). split; [done|].
  split; [lia|]. split; [exact Hflight|]. split; [reflexivity|].
  apply (test_async_api_saves_artifact env_ok req_ok empty_world
           (sample_send env_ok req_ok) (sample_answers env_ok req_ok)
           "TWFu" "" 2 ["M"; "a"; "n"]%byte [x01; x02]);
    [done|reflexivity|reflexivity|reflexivity|done|lia|exact Hflight
    |reflexivity].
Defined.

(** X16.  When the [try] block of the job's run raises, for whatever
    reason, the client's first status request after the run ends the
    test: [test_async_api] returns [False] after [d + 1] requests and
    does not open the output file. *)
Theorem test_async_api_reports_failure E request w decode send answer
    base64_image cap d e :
  base64_image ≠ "" →
  send (request_data base64_image cap)
  = respond_json (send_job E request w).1 →
  (process_job_body E (uuid4 E (issued w)) request
     (after_send E request w)).1 = Raise e →
  (d < 60)%nat →
  (∀ i, (i < d)%nat →
        in_flight E request w (answer (VStr (uuid4 E (issued w))) i)) →
  answer (VStr (uuid4 E (issued w))) d
  = respond_status
      (get_job_status (uuid4 E (issued w)) (after_run E request w)) →
  test_async_api decode send answer (Some base64_image) cap
  = RunResult false None (S d) (5 * d).
Proof.
  intros Himage Hsend Hraise Hd Hflight Hfinal.
  eapply test_async_api_run; [done..|].
  rewrite Hfinal. unfold after_run.
  destruct (after_send_spec E request w) as (_ & Hrec & _).
  run_cases E (after_send E request w) (uuid4 E (issued w)) request
    (queued_record (time_time E (clock w)) request) Hrec;
    rewrite Hbody in Hraise; try done;
    unfold get_job_status; (erewrite jobs_logged by reflexivity);
    rewrite lookup_insert_eq; unfold dict_get; by lookups.
Qed.

Lemma test_async_api_reports_failure_witness :
  "TWFu" ≠ ""
  ∧ sample_send env_backend_down req_ok (request_data "TWFu" "")
    = respond_json (send_job env_backend_down req_ok empty_world).1
  ∧ (process_job_body env_backend_down
       (uuid4 env_backend_down (issued empty_world)) req_ok
       (after_send env_backend_down req_ok empty_world)).1
    = Raise
        (Exception "Error generating 3D model: 503 Service Unavailable")
  ∧ (2 < 60)%nat
  ∧ (∀ i, (i < 2)%nat →
          in_flight env_backend_down req_ok empty_world
            (sample_answers env_backend_down req_ok
               (VStr (uuid4 env_backend_down (issued empty_world))) i))
  ∧ sample_answers env_backend_down req_ok
      (VStr (uuid4 env_backend_down (issued empty_world))) 2
    = respond_status
        (get_job_status (uuid4 env_backend_down (issued empty_world))
           (after_run env_backend_down req_ok empty_world))
  ∧ test_async_api py_b64decode (sample_send env_backend_down req_ok)
      (sample_answers env_backend_down req_ok) (Some "TWFu") ""
    = RunResult false None 3 10.
Proof.
  assert (Hflight : ∀ i, (i < 2)%nat →
    in_flight env_backend_down req_ok empty_world
      (sample_answers env_backend_down req_ok
         (VStr (uuid4 env_backend_down (issued empty_world))) i)).
  { apply sample_answers_in_flight. intros Hseen.
    apply (f_equal length) in Hseen. vm_compute in Hseen. discriminate. }
  split; [done|]. do 2 (split; [reflexivity|]).
  split; [lia|]. split; [exact Hflight|]. split; [reflexivity|].
  apply (test_async_api_reports_failure env_backend_down req_ok empty_world
           py_b64decode (sample_send env_backend_down req_ok)
           (sample_answers env_backend_down req_ok) "TWFu" "" 2
           (Exception "Error generating 3D model: 503 Service Unavailable"));
    [done|reflexivity|reflexivity|lia|exact Hflight|reflexivity].
Defined.

(** X17.  When the generator client returns an empty artifact the server
    records the job as completed with the empty string as [model_base64],
    and the test client takes that answer as a failure: it reports "Model
    data not found", returns [False] and does not open the output
    file. *)
Theorem test_async_api_empty_artifact E request w decode send answer
    base64_image cap d image_data :
  base64_image ≠ "" →
  send (request_data base64_image cap)
  = respond_json (send_job E request w).1 →
  b64decode E (image request) = Ok image_data →
  (generate_3d_model E image_data (caption request) (seed request)
     (octree_resolution request) (num_inference_steps request)
     (guidance_scale request) (mc_algo request) (texture request)
     (type request) (after_send E request w)).1 = Ok [] →
  (d < 60)%nat →
  (∀ i, (i < d)%nat →
        in_flight E request w (answer (VStr (uuid4 E (issued w))) i)) →
  answer (VStr (uuid4 E (issued w))) d
  = respond_status
      (get_job_status (uuid4 E (issued w)) (after_run E request w)) →
  get_job_status (uuid4 E (issued w)) (after_run E request w)
  = Returned
      {| status := VStr "completed";
         progress := VInt 100;
         message := VStr "Model generation completed";
         model_base64 := VStr "";
         error := VNone |}
  ∧ test_async_api decode send answer (Some base64_image) cap
    = RunResult false None (S d) (5 * d).
Proof.
  intros Himage Hsend Hdecode Hgen Hd Hflight Hfinal.
  assert (Hstatus :
    get_job_status (uuid4 E (issued w)) (after_run E request w)
    = Returned
        {| status := VStr "completed";
           progress := VInt 100;
           message := VStr "Model generation completed";
           model_base64 := VStr "";
           error := VNone |}).
  { unfold after_run.
    destruct (after_send_spec E request w) as (_ & Hrec & _).
    rewrite generate_3d_model_result in Hgen.
    run_cases E (after_send E request w) (uuid4 E (issued w)) request
      (queued_record (time_time E (clock w)) request) Hrec;
      rewrite Hdecode in Hdec; try done; injection Hdec as <-;
      rewrite Hkey in Hgen; try done; rewrite Hpost in Hgen; try done.
    injection Hgen as ->.
    unfold get_job_status. erewrite jobs_logged by reflexivity.
    rewrite lookup_insert_eq. unfold dict_get, queued_record. by lookups. }
  split; [done|].
  eapply test_async_api_run; [done..|].
  by rewrite Hfinal, Hstatus.
Qed.

Lemma test_async_api_empty_artifact_witness :
  "TWFu" ≠ ""
  ∧ sample_send env_empty_artifact req_ok (request_data "TWFu" "")
    = respond_json (send_job env_empty_artifact req_ok empty_world).1
  ∧ b64decode env_empty_artifact (image req_ok) = Ok ["M"; "a"; "n"]%byte
  ∧ (generate_3d_model env_empty_artifact ["M"; "a"; "n"]%byte
       (caption req_ok) (seed req_ok) (octree_resolution req_ok)
       (num_inference_steps req_ok) (guidance_scale req_ok) (mc_algo req_ok)
       (texture req_ok) (type req_ok)
       (after_send env_empty_artifact req_ok empty_world)).1 = Ok []
  ∧ (2 < 60)%nat
  ∧ (∀ i, (i < 2)%nat →
          in_flight env_empty_artifact req_ok empty_world
            (sample_answers env_empty_artifact req_ok
               (VStr (uuid4 env_empty_artifact (issued empty_world))) i))
  ∧ sample_answers env_empty_artifact req_ok
      (VStr (uuid4 env_empty_artifact (issued empty_world))) 2
    = respond_status
        (get_job_status (uuid4 env_empty_artifact (issued empty_world))
           (after_run env_empty_artifact req_ok empty_world))
  ∧ get_job_status (uuid4 env_empty_artifact (issued empty_world))
      (after_run env_empty_artifact req_ok empty_world)
    = Returned
        {| status := VStr "completed";
           progress := VInt 100;
           message := VStr "Model generation completed";
           model_base64 := VStr "";
           error := VNone |}
  ∧ test_async_api py_b64decode (sample_send env_empty_artifact req_ok)
      (sample_answers env_empty_artifact req_ok) (Some "TWFu") ""
    = RunResult false None 3 10.
Proof.
  assert (Hflight : ∀ i, (i < 2)%nat →
    in_flight env_empty_artifact req_ok empty_world
      (sample_answers env_empty_artifact req_ok
         (VStr (uuid4 env_empty_artifact (issued empty_world))) i)).
  { apply sample_answers_in_flight. intros Hseen.
    apply (f_equal length) in Hseen. vm_compute in Hseen. discriminate. }
  split; [done|]. do 3 (split; [reflexivity|]).
  split; [lia|]. split; [exact Hflight|]. split; [reflexivity|].
  apply (test_async_api_empty_artifact env_empty_artifact req_ok empty_world
           py_b64decode (sample_send env_empty_artifact req_ok)
           (sample_answers env_empty_artifact req_ok) "TWFu" "" 2
           ["M"; "a"; "n"]%byte);
    [done|reflexivity|reflexivity|reflexivity|lia|exact Hflight|reflexivity].
Defined.

Lemma foldl_app_mjoin (chunks : list bytes) (file : bytes) :
  foldl (λ file chunk : bytes, (file ++ chunk)%list) file chunks
  = (file ++ mjoin chunks)%list.
Proof.
  revert file. induction chunks as [|chunk chunks IH]; intros file.
  - cbn. by rewrite app_nil_r.
  - cbn [foldl]. rewrite IH. cbn [mjoin list_join]. by rewrite app_assoc.
Qed.

(** X18.  The synchronous test against [generate_model]: when the
    handler's [try] block returns an artifact, [test_sync_api] returns
    [True] and the file it wrote holds that artifact byte for byte,
    however the answer is cut into chunks; when it raises, for whatever
    reason, the test returns [False] and does not open the output
    file. *)
Theorem test_sync_api_saves_artifact E request w generate base64_image cap :
  base64_image ≠ "" →
  answers_generate (generate_model E request w).1
    (generate (request_data base64_image cap)) →
  test_sync_api generate (Some base64_image) cap
  = match (generate_model_body E request w).1 with
    | Ok model_data => (true, Some model_data)
    | Raise _ => (false, None)
    end.
Proof.
  intros Himage. unfold test_sync_api, generate_model. cbn [truthy].
  destruct (String.eqb_spec base64_image "") as [?|_]; [done|]. cbn [negb].
  destruct (generate_model_body E request w) as [[model_data|e] w'];
    cbn [fst answers_generate content].
  - intros [-> <-]. change (negb (reply_ok 200)) with false. cbv iota.
    by rewrite foldl_app_mjoin.
  - by intros ->.
Qed.

Lemma test_sync_api_saves_artifact_witness :
  "TWFu" ≠ ""
  ∧ answers_generate (generate_model env_ok req_ok empty_world).1
      (StreamReply 200 [[x01]; []; [x02]])
  ∧ test_sync_api (λ _, StreamReply 200 [[x01]; []; [x02]]) (Some "TWFu") ""
    = match (generate_model_body env_ok req_ok empty_world).1 with
      | Ok model_data => (true, Some model_data)
      | Raise _ => (false, None)
      end.
Proof.
  assert (Hanswer :
    answers_generate (generate_model env_ok req_ok empty_world).1
      (StreamReply 200 [[x01]; []; [x02]])) by (split; reflexivity).
  split; [done|]. split; [exact Hanswer|].
  by apply (test_sync_api_saves_artifact env_ok req_ok empty_world
              (λ _, StreamReply 200 [[x01]; []; [x02]]) "TWFu" "").
Defined.
